(** * Outfit recommendation engine

    A shallow embedding of the recommendation engine
    ([lib/recommendation-engine.ts]): the precomputed compatibility
    tables, the five dimension scorers, the item selector, and the
    assembly / deduplication / ranking loop of
    [generateOutfitRecommendations].

    Conventions of the model.
    - A JavaScript [number] that holds a score is an exact rational ([Q]);
      counts, prices and brand tiers are integers ([Z]) or naturals.
      The code computes in doubles: a property that relates a score
      to the number it is computed from leaves room for their
      rounding ([double_slack]), and one about a sum of prices keeps
      the sum in the range where doubles are exact ([safe_prices]).
    - A plain object used as a lookup table is a [gmap]; a [Set<string>]
      is a [gset string]; an optional field is an [option].
    - [Math.random], [performance.now] and [Date.now] are oracles: each
      call takes the next value of a stream, and the streams are
      threaded through a small state monad. *)

From Stdlib Require Import QArith Qround Qabs Lqa ZArith Lia.
From Stdlib Require Import String Ascii List Bool.
From stdpp Require Import base strings finite gmap list sorting.

Local Open Scope string_scope.
Local Open Scope Z_scope.

(** ** Data model

    The type declarations of [types/product] are not part of the
    sources at hand; the enumerations are those of the two matrices, and
    the records list the fields the engine reads and writes. *)

Inductive ColorFamily : Set :=
  | black | white | gray | navy | brown | beige | cream
  | green | blue | red | pink | purple | orange | multi.

Inductive StyleType : Set :=
  | streetwear | casual | athletic | formal | luxury | minimalist.

#[global] Instance ColorFamily_eq_dec : EqDecision ColorFamily.
Proof. solve_decision. Defined.

#[global] Instance StyleType_eq_dec : EqDecision StyleType.
Proof. solve_decision. Defined.

Definition all_colors : list ColorFamily :=
  [black; white; gray; navy; brown; beige; cream;
   green; blue; red; pink; purple; orange; multi].

Definition all_styles : list StyleType :=
  [streetwear; casual; athletic; formal; luxury; minimalist].

#[global] Program Instance ColorFamily_finite : Finite ColorFamily :=
  {| enum := all_colors |}.
Next Obligation. apply (bool_decide_unpack _). vm_compute. exact I. Qed.
Next Obligation. intros []; unfold all_colors; set_solver. Qed.

#[global] Program Instance StyleType_finite : Finite StyleType :=
  {| enum := all_styles |}.
Next Obligation. apply (bool_decide_unpack _). vm_compute. exact I. Qed.
Next Obligation. intros []; unfold all_styles; set_solver. Qed.

(** Modelled from the spec: the [Product] type of [types/product] is not
    part of the sources at hand.  The record has the fields the engine
    reads ([sku_id], [brand_name], [lowest_price], [color_family],
    [style], [season], [tags]) together with [title] and [category] of
    the data model; [color_family] and [style] may be absent, which is
    what the engine's [|| 'black'] and [|| 'casual'] defaults cater for.
    Prices are integer currency units. *)
Record Product : Set := mkProduct {
  sku_id : string;
  title : string;
  brand_name : string;
  category : string;
  lowest_price : Z;
  color_family : option ColorFamily;
  style : option StyleType;
  season : string;
  tags : list string
}.

#[global] Instance Product_eq_dec : EqDecision Product.
Proof. solve_decision. Defined.

Record ScoreBreakdown : Set := mkBreakdown {
  color_harmony : Q;
  style_match : Q;
  brand_cohesion : Q;
  price_balance : Q;
  season_fit : Q
}.

(** [generateOutfitId] builds the string
    [outfit_<Date.now()>_<Math.random() in base 36>]; the model keeps the
    two readings and leaves the base-36 rendering out. *)
Record OutfitId : Set := mkOutfitId {
  id_time : Z;
  id_random : Q
}.

(** An outfit.  [tempSortScore] is the field that the engine attaches to
    the object after pushing it and deletes again before returning. *)
Record Outfit : Set := mkOutfit {
  id : OutfitId;
  top : Product;
  bottom : Product;
  footwear : Product;
  accessories : list Product;
  match_score : Q;
  score_breakdown : ScoreBreakdown;
  reasoning : string;
  total_price : Z;
  tempSortScore : option Q
}.

Record RecommendationRequest : Set := mkRequest {
  base_product_id : string;
  preferred_style : option StyleType;
  req_season : option string;
  num_outfits : option Z
}.

(** The [base_product] of a response is either the resolved product or
    the empty object [{} as Product]. *)
Inductive BaseProduct : Set :=
  | EmptyObject
  | Resolved (p : Product).

Record RecommendationResponse : Set := mkResponse {
  outfits : list Outfit;
  base_product : BaseProduct;
  processing_time_ms : Q;
  cache_hit : bool
}.

(** ** Precomputed scoring matrices *)

Definition color_row (bk wh gy nv br bg cr gn bl rd pk pu og mu : Q)
  : gmap ColorFamily Q :=
  list_to_map
    [(black, bk); (white, wh); (gray, gy); (navy, nv); (brown, br);
     (beige, bg); (cream, cr); (green, gn); (blue, bl); (red, rd);
     (pink, pk); (purple, pu); (orange, og); (multi, mu)].

Definition COLOR_HARMONY : gmap ColorFamily (gmap ColorFamily Q) :=
  list_to_map
  [ (black,  color_row 0.7 1.0 0.95 0.9 0.8 0.9 0.95 0.8 0.85 0.75 0.7 0.7 0.7 0.6);
    (white,  color_row 1.0 0.6 0.9 0.95 0.85 0.9 0.85 0.85 0.9 0.85 0.8 0.8 0.85 0.7);
    (gray,   color_row 0.95 0.9 0.7 0.9 0.75 0.85 0.9 0.8 0.85 0.7 0.75 0.75 0.7 0.6);
    (navy,   color_row 0.9 0.95 0.9 0.7 0.9 0.95 0.95 0.75 0.8 0.7 0.7 0.7 0.65 0.6);
    (brown,  color_row 0.8 0.85 0.75 0.9 0.7 0.95 0.95 0.85 0.75 0.65 0.6 0.6 0.8 0.6);
    (beige,  color_row 0.9 0.9 0.85 0.95 0.95 0.7 0.8 0.85 0.85 0.7 0.75 0.7 0.8 0.65);
    (cream,  color_row 0.95 0.85 0.9 0.95 0.95 0.8 0.65 0.85 0.85 0.75 0.8 0.75 0.8 0.65);
    (green,  color_row 0.8 0.85 0.8 0.75 0.85 0.85 0.85 0.6 0.7 0.5 0.55 0.6 0.6 0.55);
    (blue,   color_row 0.85 0.9 0.85 0.8 0.75 0.85 0.85 0.7 0.6 0.6 0.65 0.7 0.55 0.55);
    (red,    color_row 0.75 0.85 0.7 0.7 0.65 0.7 0.75 0.5 0.6 0.5 0.65 0.6 0.5 0.5);
    (pink,   color_row 0.7 0.8 0.75 0.7 0.6 0.75 0.8 0.55 0.65 0.65 0.5 0.7 0.5 0.5);
    (purple, color_row 0.7 0.8 0.75 0.7 0.6 0.7 0.75 0.6 0.7 0.6 0.7 0.5 0.5 0.5);
    (orange, color_row 0.7 0.85 0.7 0.65 0.8 0.8 0.8 0.6 0.55 0.5 0.5 0.5 0.5 0.55);
    (multi,  color_row 0.6 0.7 0.6 0.6 0.6 0.65 0.65 0.55 0.55 0.5 0.5 0.5 0.55 0.4) ].

Definition style_row (sw ca at_ fo lu mi : Q) : gmap StyleType Q :=
  list_to_map
    [(streetwear, sw); (casual, ca); (athletic, at_);
     (formal, fo); (luxury, lu); (minimalist, mi)].

Definition STYLE_COMPATIBILITY : gmap StyleType (gmap StyleType Q) :=
  list_to_map
  [ (streetwear, style_row 1.0 0.85 0.8 0.3 0.7 0.75);
    (casual,     style_row 0.85 1.0 0.75 0.5 0.7 0.9);
    (athletic,   style_row 0.8 0.75 1.0 0.2 0.5 0.7);
    (formal,     style_row 0.3 0.5 0.2 1.0 0.85 0.8);
    (luxury,     style_row 0.7 0.7 0.5 0.85 1.0 0.85);
    (minimalist, style_row 0.75 0.9 0.7 0.8 0.85 1.0) ].

Definition BRAND_TIERS : gmap string Z :=
  list_to_map
  [ ("jacquemus", 5); ("omega", 5); ("swatch x omega", 5); ("amiri", 5);
    ("balmain", 5); ("gucci", 5);
    ("fear of god", 4); ("kenzo", 4); ("polo ralph lauren", 4);
    ("yeezy", 4); ("ami paris", 4); ("karl lagerfeld", 4); ("all saints", 4);
    ("nike", 3); ("adidas", 3); ("new balance", 3); ("on", 3);
    ("jordan", 3); ("air jordan", 3); ("supreme", 3);
    ("dickies", 2); ("casio", 2); ("stanley", 2); ("hashway", 2);
    ("myugen", 2); ("blacklist co", 2); ("young grandpa", 2);
    ("forfksake", 2); ("denim co", 2); ("basics", 2); ("streetwear", 2);
    ("nofomo", 1); ("anti matter", 1); ("saucy club", 1); ("bearcare", 1) ].

(** [COLOR_HARMONY[c1]?.[c2]]: the entry, if both keys are present. *)
Definition color_entry (c1 c2 : ColorFamily) : option Q :=
  COLOR_HARMONY !! c1 ≫= λ row, row !! c2.

Definition style_entry (s1 s2 : StyleType) : option Q :=
  STYLE_COMPATIBILITY !! s1 ≫= λ row, row !! s2.

(** [COLOR_HARMONY[c1]?.[c2] ?? 0.5] *)
Definition color_lookup (c1 c2 : ColorFamily) : Q :=
  default 0.5%Q (color_entry c1 c2).

(** [STYLE_COMPATIBILITY[s1]?.[s2] ?? 0.5] *)
Definition style_lookup (s1 s2 : StyleType) : Q :=
  default 0.5%Q (style_entry s1 s2).


(** ** JavaScript helpers *)

(** [String.prototype.toLowerCase], on the ASCII letters: the code's
    function on the strings that are [is_ascii]. *)
Definition lower_ascii (c : ascii) : ascii :=
  let n := nat_of_ascii c in
  if ((65 <=? n) && (n <=? 90))%nat then ascii_of_nat (n + 32) else c.

Fixpoint toLowerCase (s : string) : string :=
  match s with
  | EmptyString => EmptyString
  | String c s' => String (lower_ascii c) (toLowerCase s')
  end.

Definition Qltb (a b : Q) : bool := negb (Qle_bool b a).

(** [Math.max(a, b)] *)
Definition Math_max (a b : Q) : Q := if Qle_bool a b then b else a.

(** [Math.round(x)]: the nearest integer, halves rounded up. *)
Definition Math_round (x : Q) : Z := Qfloor (x + 0.5).

Definition of_nat (n : nat) : Q := inject_Z (Z.of_nat n).

(** [Array.prototype.includes] on products.  Catalog entries are
    immutable objects, so the reference comparison is modelled by
    equality of the records: the two agree on a catalog whose rows
    are distinct products ([distinct_rows]). *)
Definition includes (p : Product) (l : list Product) : bool :=
  bool_decide (p ∈ l).

(** [Array.prototype.sort] with a comparator.  The sort is stable; an
    element [y] is moved in front of an earlier element [x] exactly when
    the comparator says [cmp x y > 0].  A comparator result of [None]
    stands for [NaN] (a subtraction with an absent operand), which the
    sort treats like [0]. *)
Definition comes_first {A} (cmp : A → A → option Q) (y x : A) : bool :=
  match cmp x y with
  | Some d => Qltb 0 d
  | None => false
  end.

Fixpoint sort_insert {A} (cmp : A → A → option Q) (x : A) (l : list A)
  : list A :=
  match l with
  | [] => [x]
  | y :: l' =>
      if comes_first cmp y x then y :: sort_insert cmp x l'
      else x :: y :: l'
  end.

Definition Array_sort {A} (cmp : A → A → option Q) (l : list A) : list A :=
  foldr (sort_insert cmp) [] l.

(** [Array.prototype.slice(0, end)] for an integer [end]: a negative
    [end] counts from the back. *)
Definition slice0 {A} (l : list A) (e : Z) : list A :=
  if e <? 0 then take (Z.to_nat (Z.max (Z.of_nat (length l) + e) 0)) l
  else take (Z.to_nat e) l.

(** ** Scoring functions *)

(** [item.color_family || 'black'] and [item.style || 'casual'] *)
Definition itemColor (p : Product) : ColorFamily :=
  default black (color_family p).

Definition itemStyle (p : Product) : StyleType :=
  default casual (style p).

(** [BRAND_TIERS[brand_name.toLowerCase()] || 2], a lookup among the
    keys the table lists: the code's lookup for every brand name that
    is a [plain_name], one that does not hit a key the table inherits
    from [Object.prototype]. *)
Definition brandTier (p : Product) : Z :=
  match BRAND_TIERS !! toLowerCase (brand_name p) with
  | Some t => if t =? 0 then 2 else t
  | None => 2
  end.

(** The two nested loops shared by [calculateColorHarmony] and
    [calculateStyleMatch]: for every [i < j] add the score of the pair
    and count one comparison. *)
Definition inner_loop (score : Product → Product → Q) (x : Product)
    (later : list Product) (acc : Q * nat) : Q * nat :=
  fold_left (λ a y, ((a.1 + score x y)%Q, S a.2)) later acc.

Fixpoint outer_loop (score : Product → Product → Q) (items : list Product)
    (acc : Q * nat) : Q * nat :=
  match items with
  | [] => acc
  | x :: later => outer_loop score later (inner_loop score x later acc)
  end.

Definition pairwise_mean (score : Product → Product → Q)
    (items : list Product) : Q :=
  let '(totalScore, comparisons) := outer_loop score items (0%Q, 0%nat) in
  if (0 <? comparisons)%nat then (totalScore / of_nat comparisons)%Q
  else 0.5%Q.

Definition calculateColorHarmony (items : list Product) : Q :=
  pairwise_mean (λ a b, color_lookup (itemColor a) (itemColor b)) items.

Definition calculateStyleMatch (items : list Product) : Q :=
  pairwise_mean (λ a b, style_lookup (itemStyle a) (itemStyle b)) items.

(** On an empty list the JavaScript divisions by [tiers.length] give
    [NaN]; the engine only scores the items of an outfit, which are at
    least three (see [allItemsOf_length]). *)
Definition calculateBrandCohesion (items : list Product) : Q :=
  let tiers := map brandTier items in
  let avgTier :=
    (inject_Z (fold_left Z.add tiers 0%Z) / of_nat (length tiers))%Q in
  let variance :=
    (fold_left
       (λ sum tier,
          sum + (inject_Z tier - avgTier) * (inject_Z tier - avgTier))
       tiers 0 / of_nat (length tiers))%Q in
  Math_max 0 (1 - variance / 4)%Q.

Definition calculatePriceBalance (items : list Product) : Q :=
  let prices := List.filter (λ p, 0 <? p) (map lowest_price items) in
  match prices with
  | [] => 0.5%Q
  | _ =>
      let avgPrice :=
        (inject_Z (fold_left Z.add prices 0%Z) / of_nat (length prices))%Q in
      let variance :=
        (fold_left
           (λ sum p, sum + ((inject_Z p - avgPrice) / avgPrice)
                           * ((inject_Z p - avgPrice) / avgPrice))
           prices 0 / of_nat (length prices))%Q in
      Math_max 0 (1 - variance)%Q
  end.

(** [!targetSeason] holds of an absent season and of the empty string.
    As for the brand tiers, [items] is never empty in the engine. *)
Definition calculateSeasonFit (items : list Product)
    (targetSeason : option string) : Q :=
  match targetSeason with
  | None => 1.0%Q
  | Some t =>
      if String.eqb t "" || String.eqb t "all" then 1.0%Q
      else
        let seasonMatches :=
          length (List.filter
                    (λ item, String.eqb (season item) "all"
                             || String.eqb (season item) t) items) in
        (of_nat seasonMatches / of_nat (length items))%Q
  end.

(** ** Reasoning text *)

Definition color_name (c : ColorFamily) : string :=
  match c with
  | black => "black" | white => "white" | gray => "gray" | navy => "navy"
  | brown => "brown" | beige => "beige" | cream => "cream"
  | green => "green" | blue => "blue" | red => "red" | pink => "pink"
  | purple => "purple" | orange => "orange" | multi => "multi"
  end.

Definition style_name (s : StyleType) : string :=
  match s with
  | streetwear => "streetwear" | casual => "casual" | athletic => "athletic"
  | formal => "formal" | luxury => "luxury" | minimalist => "minimalist"
  end.

(** [[...new Set(xs)]]: the distinct values in order of first
    occurrence. *)
Fixpoint new_Set {A} `{EqDecision A} (seen xs : list A) : list A :=
  match xs with
  | [] => []
  | x :: xs' =>
      if bool_decide (x ∈ seen) then new_Set seen xs'
      else x :: new_Set (x :: seen) xs'
  end.

Definition generateReasoning (breakdown : ScoreBreakdown)
    (items : list Product) (totalPrice : Z) : string :=
  let r_color :=
    if Qle_bool 0.85 (color_harmony breakdown) then
      let dominantColors := take 2 (new_Set [] (map color_family items)) in
      ["Excellent color harmony with "
         ++ String.concat " and "
              (map (λ c, from_option color_name "" c) dominantColors)
         ++ " creating a cohesive palette"]
    else if Qle_bool 0.7 (color_harmony breakdown) then
      ["Well-balanced color coordination throughout"]
    else [] in
  let r_style :=
    if Qle_bool 0.85 (style_match breakdown) then
      let st := default casual (head items ≫= style) in
      ["Strong " ++ style_name st ++ " aesthetic unity"]
    else if Qle_bool 0.7 (style_match breakdown) then
      ["Versatile style mix that transitions well"]
    else [] in
  let r_brand :=
    if Qle_bool 0.8 (brand_cohesion breakdown)
    then ["Matched brand positioning for a polished look"] else [] in
  let r_price :=
    if Qle_bool 0.8 (price_balance breakdown)
    then ["Balanced investment across all pieces"] else [] in
  let reasons := (r_color ++ r_style ++ r_brand ++ r_price)%list in
  match reasons with
  | [] => "A versatile combination suitable for various occasions."
  | _ => String.concat ". " reasons ++ "."
  end.

(** ** The outside world: random numbers and clocks *)

(** The state of the oracles: what the coming calls of [Math.random],
    [performance.now] and [Date.now] will return, in order. *)
Record World : Type := mkWorld {
  random_stream : nat → Q;
  perf_stream : nat → Q;
  date_stream : nat → Z
}.

Definition M (A : Type) : Type := World → A * World.

Definition ret {A} (a : A) : M A := λ w, (a, w).

Definition bind {A B} (m : M A) (k : A → M B) : M B :=
  λ w, let '(a, w') := m w in k a w'.

Notation "'let*' x ':=' m 'in' k" := (bind m (λ x, k))
  (at level 10, x pattern, m at level 100, k at level 200).

Definition Math_random : M Q := λ w,
  (random_stream w 0%nat,
   {| random_stream := λ k, random_stream w (S k);
      perf_stream := perf_stream w;
      date_stream := date_stream w |}).

Definition performance_now : M Q := λ w,
  (perf_stream w 0%nat,
   {| random_stream := random_stream w;
      perf_stream := λ k, perf_stream w (S k);
      date_stream := date_stream w |}).

Definition Date_now : M Z := λ w,
  (date_stream w 0%nat,
   {| random_stream := random_stream w;
      perf_stream := perf_stream w;
      date_stream := λ k, date_stream w (S k) |}).

Definition generateOutfitId : M OutfitId :=
  let* t := Date_now in
  let* r := Math_random in
  ret (mkOutfitId t r).

(** ** Item selector *)

(** The score [selectBestItem] gives to one candidate. *)
Definition candidateScore (existingItems : list Product)
    (preferredStyle : option StyleType) (item : Product) : Q :=
  let n := of_nat (length existingItems) in
  let score := 0%Q in
  let score :=
    match existingItems with
    | _ :: _ =>
        let colorScore :=
          (fold_left
             (λ sum existing,
                sum + color_lookup (itemColor item) (itemColor existing))
             existingItems 0 / n)%Q in
        (score + colorScore * 0.4)%Q
    | [] => (score + 0.4)%Q
    end in
  let score :=
    match existingItems, preferredStyle with
    | _ :: _, _ =>
        let styleScore :=
          (fold_left
             (λ sum existing,
                sum + style_lookup (itemStyle item) (itemStyle existing))
             existingItems 0 / n)%Q in
        (score + styleScore * 0.35)%Q
    | [], Some preferred =>
        (score + style_lookup (itemStyle item) preferred * 0.35)%Q
    | [], None => (score + 0.35)%Q
    end in
  let score :=
    match existingItems with
    | _ :: _ =>
        let avgTier :=
          (fold_left (λ sum e, sum + inject_Z (brandTier e)) existingItems 0
           / n)%Q in
        let itemTier := inject_Z (brandTier item) in
        let tierDiff := Qabs (avgTier - itemTier) in
        (score + Math_max 0 (1 - tierDiff / 3) * 0.15)%Q
    | [] => (score + 0.15)%Q
    end in
  if bool_decide ("bestseller" ∈ tags item) then (score + 0.1)%Q else score.

Definition selectBestItem (candidates existingItems : list Product)
    (preferredStyle : option StyleType) : M (option Product) :=
  match candidates with
  | [] => ret None
  | _ =>
      let scoredItems :=
        map (λ item, (item, candidateScore existingItems preferredStyle item))
            candidates in
      let scoredItems :=
        Array_sort (λ a b, Some (b.2 - a.2)%Q) scoredItems in
      let topItems :=
        take (Nat.min 3 (length scoredItems)) scoredItems in
      let* r := Math_random in
      let randomIndex := Qfloor (r * of_nat (length topItems)) in
      ret (if randomIndex <? 0 then None
           else fst <$> topItems !! Z.to_nat randomIndex)
  end.

(** ** Main recommendation engine *)

Section Engine.

(** The catalog provider ([data/products]) is a collaborator whose
    code is not part of the sources at hand; the engine is modelled
    over whatever it returns. *)
Variable products : list Product.
Variable getProductsByCategory : string → list Product.
Variable getProductById : string → option Product.

Definition priced (p : Product) : bool := 0 <? lowest_price p.

Definition allTops : list Product :=
  List.filter priced (getProductsByCategory "tops").
Definition allBottoms : list Product :=
  List.filter priced (getProductsByCategory "bottoms").
Definition allFootwear : list Product :=
  List.filter priced (getProductsByCategory "footwear").
Definition allAccessories : list Product :=
  List.filter priced (getProductsByCategory "accessories").

Definition has_sku (baseProduct : Product) (pool : list Product) : bool :=
  bool_decide (is_Some
    (List.find (λ p, String.eqb (sku_id p) (sku_id baseProduct)) pool)).

Definition baseCategory (baseProduct : Product) : string :=
  if has_sku baseProduct allTops then "tops"
  else if has_sku baseProduct allBottoms then "bottoms"
  else if has_sku baseProduct allFootwear then "footwear"
  else "accessories".

(** [request.num_outfits || 3] *)
Definition numOutfits (request : RecommendationRequest) : Z :=
  match num_outfits request with
  | Some n => if n =? 0 then 3 else n
  | None => 3
  end.

(** The slots of one attempt: [top], [bottom], [shoe] and
    [selectedItems]. *)
Record Slots : Set := mkSlots {
  s_top : option Product;
  s_bottom : option Product;
  s_shoe : option Product;
  selectedItems : list Product
}.

Definition combinationKey (top bottom shoe : Product) : string :=
  sku_id top ++ "-" ++ sku_id bottom ++ "-" ++ sku_id shoe.

(** The weighted overall score ([matchScore] in the source). *)
Definition comprehensiveScore (breakdown : ScoreBreakdown) : Q :=
  (color_harmony breakdown * 0.35
   + style_match breakdown * 0.30
   + brand_cohesion breakdown * 0.20
   + price_balance breakdown * 0.00
   + season_fit breakdown * 0.15)%Q.

(** [Math.round(x * 100) / 100] *)
Definition round2 (x : Q) : Q := (inject_Z (Math_round (x * 100)) / 100)%Q.

(** The loop state: [outfits] and [usedCombinations]. *)
Record LoopState : Type := mkLoopState {
  ls_outfits : list Outfit;
  usedCombinations : gset string
}.

(** The attempt loop reads four values from the enclosing function:
    [request.preferred_style], [request.season], [numOutfits] and
    [baseProduct]. *)
Section Attempts.

Variable preferredStyle : option StyleType.
Variable targetSeason : option string.
Variable n : Z.
Variable baseProduct : Product.

(** "Assign base product to its category" *)
Definition assignBase : Slots :=
  let c := baseCategory baseProduct in
  if String.eqb c "tops" then
    mkSlots (Some baseProduct) None None [baseProduct]
  else if String.eqb c "bottoms" then
    mkSlots None (Some baseProduct) None [baseProduct]
  else if String.eqb c "footwear" then
    mkSlots None None (Some baseProduct) [baseProduct]
  else mkSlots None None None [].

(** One of the three blocks [if (!slot) { ... }]: select from the
    pool what is not yet among the selected items. *)
Definition fillSlot (slot : option Product) (pool selected : list Product)
  : M (option Product * list Product) :=
  match slot with
  | Some _ => ret (slot, selected)
  | None =>
      let available :=
        List.filter (λ t, negb (includes t selected)) pool in
      let* picked := selectBestItem available selected preferredStyle in
      ret (match picked with
           | Some p => (Some p, (selected ++ [p])%list)
           | None => (None, selected)
           end)
  end.

Definition fillSlots (s : Slots) : M Slots :=
  let* (top, sel) := fillSlot (s_top s) allTops (selectedItems s) in
  let* (bottom, sel) := fillSlot (s_bottom s) allBottoms sel in
  let* (shoe, sel) := fillSlot (s_shoe s) allFootwear sel in
  ret (mkSlots top bottom shoe sel).

(** The loop [for (let i = 0; i < numAccessories; i++)], with
    [rounds] rounds still to go. *)
Fixpoint addAccessories (selected : list Product) (rounds : nat)
    (accessories : list Product) : M (list Product) :=
  match rounds with
  | O => ret accessories
  | S rounds' =>
      let* accessory :=
        selectBestItem
          (List.filter (λ a, negb (includes a accessories))
             allAccessories)
          (selected ++ accessories)%list
          preferredStyle in
      addAccessories selected rounds'
        (match accessory with
         | Some a => (accessories ++ [a])%list
         | None => accessories
         end)
  end.

Definition scoreItems (allItems : list Product) : ScoreBreakdown :=
  {| color_harmony := calculateColorHarmony allItems;
     style_match := calculateStyleMatch allItems;
     brand_cohesion := calculateBrandCohesion allItems;
     price_balance := calculatePriceBalance allItems;
     season_fit := calculateSeasonFit allItems targetSeason |}.

(** The part of an attempt after the duplicate check: accessories,
    scores, and the outfit object with its [tempSortScore]. *)
Definition completeOutfit (attempt : nat) (top bottom shoe : Product)
    (selected : list Product) : M Outfit :=
  let numAccessories := (1 + attempt mod 2)%nat in
  let* accessories := addAccessories selected numAccessories [] in
  let allItems := top :: bottom :: shoe :: accessories in
  let totalPrice :=
    fold_left (λ sum item, sum + lowest_price item) allItems 0 in
  let breakdown := scoreItems allItems in
  let userDisplayScore := style_match breakdown in
  let* oid := generateOutfitId in
  ret {| id := oid;
         top := top;
         bottom := bottom;
         footwear := shoe;
         accessories := accessories;
         match_score := round2 userDisplayScore;
         score_breakdown := breakdown;
         reasoning := generateReasoning breakdown allItems totalPrice;
         total_price := totalPrice;
         tempSortScore := Some (comprehensiveScore breakdown) |}.

(** The body of the attempt loop. *)
Definition attemptBody (attempt : nat) (st : LoopState) : M LoopState :=
  let* s := fillSlots assignBase in
  match s_top s, s_bottom s, s_shoe s with
  | Some top, Some bottom, Some shoe =>
      let key := combinationKey top bottom shoe in
      if bool_decide (key ∈ usedCombinations st) then ret st
      else
        let* o := completeOutfit attempt top bottom shoe
                    (selectedItems s) in
        ret (mkLoopState (ls_outfits st ++ [o])%list
                         ({[ key ]} ∪ usedCombinations st))
  | _, _, _ => ret st
  end.

(** [for (attempt = 0; attempt < numOutfits * 5 &&
    outfits.length < numOutfits; attempt++)].  The loop makes at most
    [numOutfits * 5] rounds; [fuel] is the number of rounds allowed. *)
Fixpoint attemptLoop (fuel : nat) (attempt : nat) (st : LoopState)
  : M LoopState :=
  match fuel with
  | O => ret st
  | S fuel' =>
      if (Z.of_nat attempt <? n * 5)
         && (Z.of_nat (length (ls_outfits st)) <? n)
      then
        let* st' := attemptBody attempt st in
        attemptLoop fuel' (S attempt) st'
      else ret st
  end.

End Attempts.

(** [(a, b) => b.tempSortScore - a.tempSortScore] *)
Definition bySortScore (a b : Outfit) : option Q :=
  match tempSortScore b, tempSortScore a with
  | Some sb, Some sa => Some (sb - sa)%Q
  | _, _ => None
  end.

(** [delete outfit.tempSortScore] *)
Definition deleteSortScore (o : Outfit) : Outfit :=
  {| id := id o; top := top o; bottom := bottom o; footwear := footwear o;
     accessories := accessories o; match_score := match_score o;
     score_breakdown := score_breakdown o; reasoning := reasoning o;
     total_price := total_price o; tempSortScore := None |}.

Definition generateOutfitRecommendations (request : RecommendationRequest)
  : M RecommendationResponse :=
  let* startTime := performance_now in
  match getProductById (base_product_id request) with
  | None =>
      let* t := performance_now in
      ret {| outfits := [];
             base_product := EmptyObject;
             processing_time_ms := (t - startTime)%Q;
             cache_hit := false |}
  | Some baseProduct =>
      let n := numOutfits request in
      let* st :=
        attemptLoop (preferred_style request) (req_season request) n
          baseProduct (Z.to_nat (n * 5)) 0 (mkLoopState [] ∅) in
      let sorted := Array_sort bySortScore (ls_outfits st) in
      let cleaned := map deleteSortScore sorted in
      let* t := performance_now in
      let processingTime := (t - startTime)%Q in
      ret {| outfits := slice0 cleaned n;
             base_product := Resolved baseProduct;
             processing_time_ms := round2 processingTime;
             cache_hit := false |}
  end.

Definition getBaseProductOptions : list Product :=
  List.filter priced products.

End Engine.

(** ** A concrete catalog: the scenario of the specification *)

(** Modelled from the spec: the catalog provider of [data/products],
    "backed by a static list"; [getProductsByCategory] keeps the entries
    of the given category, in catalog order. *)
Definition catalogByCategory (catalog : list Product) (c : string)
  : list Product :=
  List.filter (λ p, String.eqb (category p) c) catalog.

(** Modelled from the spec: [getProductById] over a static list, the
    first entry with the given [sku_id], or none. *)
Definition catalogById (catalog : list Product) (i : string)
  : option Product :=
  List.find (λ p, String.eqb (sku_id p) i) catalog.

(** The engine over a static catalog. *)
Definition recommend (catalog : list Product)
    (request : RecommendationRequest) : M RecommendationResponse :=
  generateOutfitRecommendations (catalogByCategory catalog)
    (catalogById catalog) request.

Definition TOP_001 : Product :=
  mkProduct "TOP_001" "Classic White Shirt" "Basics" "tops" 1000
    (Some white) (Some casual) "all" [].
Definition BOTTOM_001 : Product :=
  mkProduct "BOTTOM_001" "Navy Chinos" "Basics" "bottoms" 1500
    (Some navy) (Some casual) "all" [].
Definition SHOE_001 : Product :=
  mkProduct "SHOE_001" "White Sneakers" "Basics" "footwear" 2000
    (Some white) (Some casual) "all" [].
Definition ACC_001 : Product :=
  mkProduct "ACC_001" "Leather Watch" "Basics" "accessories" 500
    None None "all" ["bestseller"].
Definition ACC_002 : Product :=
  mkProduct "ACC_002" "Canvas Belt" "Basics" "accessories" 400
    None None "all" [].

Definition BOTTOM_002 : Product :=
  mkProduct "BOTTOM_002" "Black Jeans" "Dickies" "bottoms" 1800
    (Some black) (Some streetwear) "all" [].

Definition scenario : list Product :=
  [TOP_001; BOTTOM_001; SHOE_001; ACC_001].

(** The scenario with a second pair of trousers and a second
    accessory. *)
Definition wardrobe : list Product :=
  [TOP_001; BOTTOM_001; SHOE_001; ACC_001; BOTTOM_002; ACC_002].

(** The scenario without its accessory, and a catalog that holds
    nothing but the shirt. *)
Definition bare_scenario : list Product := [TOP_001; BOTTOM_001; SHOE_001].
Definition lone_shirt : list Product := [TOP_001].

(** A catalog of three items whose one outfit mixes casual and formal
    pieces. *)
Definition SHOE_002 : Product :=
  mkProduct "SHOE_002" "Oxford Shoes" "Basics" "footwear" 2500
    (Some brown) (Some formal) "all" [].

Definition office : list Product := [TOP_001; BOTTOM_001; SHOE_002].

(** A world whose random draws are all [r], whose performance clock
    reads [0, 1, 2, ...] milliseconds and whose wall clock ticks from
    [1700000000000]. *)
Definition steady (r : Q) : World :=
  {| random_stream := λ _, r;
     perf_stream := λ k, of_nat k;
     date_stream := λ k, 1700000000000 + Z.of_nat k |}.

(** A world that first yields the given draws and then [r] for ever,
    with the clocks of [steady]. *)
Definition scripted (draws : list Q) (r : Q) : World :=
  {| random_stream := λ k, nth k draws r;
     perf_stream := λ k, of_nat k;
     date_stream := λ k, 1700000000000 + Z.of_nat k |}.

Definition request_for (i : string) (n : option Z) : RecommendationRequest :=
  mkRequest i None None n.

(** * The storefront around the engine *)

(** ** components/OutfitDisplay.tsx: the match badge *)




(** ** pages/Index.tsx: pagination *)

(** [Array.prototype.slice(start, end)] for integer arguments: a
    negative index counts from the back, and both are clamped to the
    array. *)
Definition relative_index (len i : Z) : Z :=
  if i <? 0 then Z.max (len + i) 0 else Z.min i len.

Definition Array_slice {A} (l : list A) (s e : Z) : list A :=
  let len := Z.of_nat (length l) in
  let from := relative_index len s in
  let to := relative_index len e in
  take (Z.to_nat (to - from)) (drop (Z.to_nat from) l).

Definition PRODUCTS_PER_PAGE : Z := 10.

Section Pagination.

Context {A : Type}.

(** The page size, [PRODUCTS_PER_PAGE] in the page: the definitions
    below are those of the page for any size. *)
Variable perPage : Z.

(** [Math.ceil(filteredProducts.length / PRODUCTS_PER_PAGE)] *)
Definition totalPages (filteredProducts : list A) : Z :=
  Qceiling (of_nat (length filteredProducts) / inject_Z perPage).

Definition startIndex (currentPage : Z) : Z := (currentPage - 1) * perPage.

Definition endIndex (currentPage : Z) : Z := startIndex currentPage + perPage.

Definition currentProducts (filteredProducts : list A) (currentPage : Z)
  : list A :=
  Array_slice filteredProducts (startIndex currentPage) (endIndex currentPage).

(** [Array.from({ length: totalPages }, (_, i) => i + 1)] *)
Definition pageNumbers (filteredProducts : list A) : list Z :=
  seqZ 1 (totalPages filteredProducts).

(** "Showing [startIndex + 1]-[Math.min(endIndex, length)] of [length]
    products" *)
Definition showingFrom (currentPage : Z) : Z := startIndex currentPage + 1.

Definition showingTo (filteredProducts : list A) (currentPage : Z) : Z :=
  Z.min (endIndex currentPage) (Z.of_nat (length filteredProducts)).

End Pagination.

(** * Vocabulary of the properties *)


(** The accumulator of the pairwise loops: a total between 0 and the
    number of comparisons. *)
Definition within_count (acc : Q * nat) : Prop :=
  (0 <= acc.1)%Q ∧ (acc.1 <= of_nat acc.2)%Q.


(** Every draw of [Math.random] lies in [0, 1). *)
Definition unit_draws (w : World) : Prop :=
  ∀ k, (0 <= random_stream w k)%Q ∧ (random_stream w k < 1)%Q.

(** A computation that leaves the coming draws within [0, 1). *)
Definition keeps_draws {A} (m : M A) : Prop :=
  ∀ w, unit_draws w → unit_draws (m w).2.

(** The response to a request whose base product does not resolve. *)
Definition emptyResponse (elapsed : Q) : RecommendationResponse :=
  {| outfits := [];
     base_product := EmptyObject;
     processing_time_ms := elapsed;
     cache_hit := false |}.

(** The dedup key of a finished outfit. *)
Definition outfitKey (o : Outfit) : string :=
  combinationKey (top o) (bottom o) (footwear o).

(** The sku ids of the three mandatory slots. *)
Definition slotIds (o : Outfit) : list string :=
  [sku_id (top o); sku_id (bottom o); sku_id (footwear o)].

Definition allItemsOf (o : Outfit) : list Product :=
  top o :: bottom o :: footwear o :: accessories o.


(** The request [r] with its [num_outfits] replaced. *)
Definition with_num_outfits (k : option Z) (r : RecommendationRequest)
  : RecommendationRequest :=
  mkRequest (base_product_id r) (preferred_style r) (req_season r) k.

(** No sku id occurs in both pools. *)
Definition sku_disjoint (l1 l2 : list Product) : Prop :=
  ∀ x, x ∈ map sku_id l1 → x ∈ map sku_id l2 → False.

(** The property names an object literal inherits from
    [Object.prototype]: the lookup [BRAND_TIERS[key]] with one of them
    finds a function or an object, not a tier. *)
Definition Object_prototype_keys : list string :=
  ["constructor"; "__proto__"; "hasOwnProperty"; "isPrototypeOf";
   "propertyIsEnumerable"; "toLocaleString"; "toString"; "valueOf";
   "__defineGetter__"; "__defineSetter__"; "__lookupGetter__";
   "__lookupSetter__"].

Definition is_ascii (s : string) : bool :=
  forallb (λ c, (nat_of_ascii c <? 128)%nat) (list_ascii_of_string s).

(** A brand name on which [brandTier] is the lookup of the code: its
    characters are ASCII, so that [toLowerCase] lower-cases it as the
    code does, and its lower-case form is not an inherited key. *)
Definition plain_name (s : string) : bool :=
  is_ascii s && negb (bool_decide (toLowerCase s ∈ Object_prototype_keys)).

Definition plain_brand (p : Product) : Prop :=
  plain_name (brand_name p) = true.


(** [Number.MAX_SAFE_INTEGER]: up to it, sums of integers are exact in
    doubles.  An outfit has at most five items, so prices up to
    [price_cap] keep every partial sum of its total below it. *)
Definition MAX_SAFE_INTEGER : Z := 2 ^ 53 - 1.

Definition price_cap : Z := 2 ^ 50.

Definition safe_prices (getProductsByCategory : string → list Product)
    (getProductById : string → option Product) : Prop :=
  (∀ c p, p ∈ getProductsByCategory c → Z.abs (lowest_price p) <= price_cap)
  ∧ (∀ i p, getProductById i = Some p → Z.abs (lowest_price p) <= price_cap).

(** The gap between 1 and the next double, 2^-52: more than the
    product by 100 and the division by 100 of [Math.round(x * 100) /
    100] can lose to rounding when [x] lies in [0, 1]. *)
Definition double_slack : Q := 1 # (2 ^ 52).

Section Vocabulary.

Variable getProductsByCategory : string → list Product.

(** The data model's partition of the catalog: no sku id is shared
    between the tops, the bottoms and the footwear pool. *)
Definition pools_disjoint : Prop :=
  sku_disjoint (allTops getProductsByCategory)
    (allBottoms getProductsByCategory)
  ∧ sku_disjoint (allTops getProductsByCategory)
      (allFootwear getProductsByCategory)
  ∧ sku_disjoint (allBottoms getProductsByCategory)
      (allFootwear getProductsByCategory).


(** An outfit as one attempt assembles it, in a run that started in
    the world [w0]: the slots come from [fillSlots], the rest from
    [completeOutfit]. *)
Definition assembled (w0 : World) (pref : option StyleType)
    (season : option string) (base : Product) (o : Outfit) : Prop :=
  ∃ attempt w,
    let r := fillSlots getProductsByCategory pref
               (assignBase getProductsByCategory base) w in
    (unit_draws w0 → unit_draws w)
    ∧ s_top r.1 = Some (top o)
    ∧ s_bottom r.1 = Some (bottom o)
    ∧ s_shoe r.1 = Some (footwear o)
    ∧ o = (completeOutfit getProductsByCategory pref season attempt
             (top o) (bottom o) (footwear o) (selectedItems r.1) r.2).1.

(** What holds of the loop state throughout: every outfit was
    assembled by an attempt, carries a key recorded in
    [usedCombinations], and no two outfits have the same key. *)
Record LoopInv (w0 : World) (pref : option StyleType)
    (season : option string) (base : Product) (st : LoopState) : Prop := {
  inv_assembled : Forall (assembled w0 pref season base) (ls_outfits st);
  inv_used : ∀ o, o ∈ ls_outfits st → outfitKey o ∈ usedCombinations st;
  inv_nodup : NoDup (map outfitKey (ls_outfits st))
}.

(** The state of the loop at its end, for a request whose base
    product is [base], started in world [w]. *)
Definition finalState (request : RecommendationRequest) (base : Product)
    (w : World) : LoopState :=
  (attemptLoop getProductsByCategory (preferred_style request)
     (req_season request) (numOutfits request) base
     (Z.to_nat (numOutfits request * 5)) 0 (mkLoopState [] ∅)
     (performance_now w).2).1.

End Vocabulary.

(** The sum of a list of prices. *)
Definition sumZ (l : list Z) : Z := foldr Z.add 0 l.

(** An item that suits the season [t]: the test of the season
    scorer. *)
Definition in_season (t : string) (item : Product) : bool :=
  String.eqb (season item) "all" || String.eqb (season item) t.


(** The product [p] under another brand name. *)
Definition with_brand (b : string) (p : Product) : Product :=
  mkProduct (sku_id p) (title p) b (category p) (lowest_price p)
    (color_family p) (style p) (season p) (tags p).

(** A string without the separator of the combination keys. *)
Definition dash_free (s : string) : Prop :=
  ¬ In "-"%char (list_ascii_of_string s).

(** The sum of the scores of [x] with each item of [later], the sum
    over all pairs [i < j] of a list, and the number of those pairs. *)
Definition row_sum (score : Product → Product → Q) (x : Product)
    (later : list Product) : Q :=
  foldr (λ y s, score x y + s)%Q 0%Q later.

Fixpoint pair_sum (score : Product → Product → Q) (items : list Product)
  : Q :=
  match items with
  | [] => 0%Q
  | x :: later => (row_sum score x later + pair_sum score later)%Q
  end.

Fixpoint pair_count (items : list Product) : nat :=
  match items with
  | [] => 0%nat
  | _ :: later => (length later + pair_count later)%nat
  end.


(** * Properties *)

(** ** The matrices *)

Lemma Qle_by_computation (a b : Q) : Qle_bool a b = true → (a <= b)%Q.
Proof. apply Qle_bool_iff. Qed.

Lemma color_lookup_bounds (a b : ColorFamily) :
  (0 <= color_lookup a b)%Q ∧ (color_lookup a b <= 1)%Q.
Proof.
  destruct a, b; split; apply Qle_by_computation; vm_compute; reflexivity.
Qed.

Lemma style_lookup_bounds (a b : StyleType) :
  (0 <= style_lookup a b)%Q ∧ (style_lookup a b <= 1)%Q.
Proof.
  destruct a, b; split; apply Qle_by_computation; vm_compute; reflexivity.
Qed.

(** ** Rational arithmetic used by the scorers *)

Lemma of_nat_nonneg (k : nat) : (0 <= of_nat k)%Q.
Proof.
  unfold of_nat. change 0%Q with (inject_Z 0). rewrite <- Zle_Qle. lia.
Qed.

Lemma of_nat_S (k : nat) : (of_nat (S k) == of_nat k + 1)%Q.
Proof.
  unfold of_nat. rewrite Nat2Z.inj_succ, <- Z.add_1_r, inject_Z_plus.
  reflexivity.
Qed.

Lemma of_nat_pos (k : nat) : (0 < k)%nat → (0 < of_nat k)%Q.
Proof.
  intros H. unfold of_nat. change 0%Q with (inject_Z 0).
  rewrite <- Zlt_Qlt. lia.
Qed.


Lemma Qdiv_nonneg (a b : Q) : (0 <= a)%Q → (0 <= b)%Q → (0 <= a / b)%Q.
Proof.
  intros Ha Hb. unfold Qdiv. apply Qmult_le_0_compat; [exact Ha|].
  apply Qinv_le_0_compat. exact Hb.
Qed.

Lemma Qdiv_le_1 (a b : Q) : (0 <= a)%Q → (a <= b)%Q → (a / b <= 1)%Q.
Proof.
  intros Ha Hab.
  destruct (Qlt_le_dec 0 b) as [Hb|Hb].
  - apply Qle_shift_div_r; [exact Hb|]. lra.
  - assert (Ha0 : (a == 0)%Q) by lra.
    rewrite Ha0. unfold Qdiv. rewrite Qmult_0_l. lra.
Qed.

Lemma Math_max_0_bounds (x : Q) :
  (x <= 1)%Q → (0 <= Math_max 0 x)%Q ∧ (Math_max 0 x <= 1)%Q.
Proof.
  intros Hx. unfold Math_max.
  destruct (Qle_bool 0 x) eqn:E.
  - apply Qle_bool_iff in E. split; [exact E|exact Hx].
  - split; lra.
Qed.

Lemma Math_round_bounds (x : Q) :
  (0 <= x)%Q → (x <= 100)%Q → 0 <= Math_round x <= 100.
Proof.
  intros H0 H1. unfold Math_round. split.
  - change 0 with (Qfloor 0.5). apply Qfloor_resp_le. lra.
  - change 100 with (Qfloor 100.5). apply Qfloor_resp_le. lra.
Qed.


Lemma Math_round_nearest (x : Q) :
  (Qabs (inject_Z (Math_round x) - x) <= 1 / 2)%Q.
Proof.
  unfold Math_round.
  pose proof (Qfloor_le (x + 0.5)) as H1.
  pose proof (Qlt_floor (x + 0.5)) as H2.
  rewrite inject_Z_plus in H2. change (inject_Z 1) with 1%Q in H2.
  change (1 / 2)%Q with (1 # 2)%Q.
  apply Qabs_Qle_condition. split; lra.
Qed.

(** [round2 x] is a whole number of hundredths, the one nearest to
    [x]. *)
Lemma round2_nearest (x : Q) :
  ∃ k : Z,
    k = Math_round (x * 100)
    ∧ (round2 x == inject_Z k / 100)%Q
    ∧ (Qabs (inject_Z k - 100 * x) <= 1 / 2)%Q
    ∧ (Qabs (round2 x - x) <= 1 / 200)%Q.
Proof.
  exists (Math_round (x * 100)). split; [reflexivity|].
  split; [reflexivity|].
  pose proof (Math_round_nearest (x * 100)) as H.
  change (1 / 2)%Q with (1 # 2)%Q in *.
  change (1 / 200)%Q with (1 # 200)%Q.
  apply Qabs_Qle_condition in H as [H1 H2].
  unfold round2. set (k := inject_Z (Math_round (x * 100))) in *.
  split; apply Qabs_Qle_condition.
  - split; lra.
  - assert (E : (k / 100 == k * (1 # 100))%Q) by (unfold Qdiv; reflexivity).
    rewrite E. split; lra.
Qed.


(** ** The dimension scorers stay within [0, 1] *)

Section PairwiseMean.

Variable score : Product → Product → Q.
Hypothesis score_bounds : ∀ a b, (0 <= score a b)%Q ∧ (score a b <= 1)%Q.

Lemma inner_loop_within x later acc :
  within_count acc → within_count (inner_loop score x later acc).
Proof.
  unfold inner_loop. revert acc.
  induction later as [|y later IH]; intros acc Hacc; simpl; [exact Hacc|].
  apply IH. destruct Hacc as [H0 H1].
  destruct (score_bounds x y) as [S0 S1].
  unfold within_count; simpl. rewrite of_nat_S. split; lra.
Qed.

Lemma outer_loop_within items acc :
  within_count acc → within_count (outer_loop score items acc).
Proof.
  revert acc. induction items as [|x later IH]; intros acc Hacc; simpl.
  - exact Hacc.
  - apply IH, inner_loop_within, Hacc.
Qed.

Lemma pairwise_mean_bounds items :
  (0 <= pairwise_mean score items)%Q ∧ (pairwise_mean score items <= 1)%Q.
Proof.
  unfold pairwise_mean.
  assert (H : within_count (outer_loop score items (0%Q, 0%nat))).
  { apply outer_loop_within. split; simpl; [lra|]. apply of_nat_nonneg. }
  destruct (outer_loop score items (0%Q, 0%nat)) as [total k].
  destruct H as [H0 H1]; simpl in H0, H1.
  destruct (0 <? k)%nat.
  - split; [apply Qdiv_nonneg|apply Qdiv_le_1]; lra.
  - split; lra.
Qed.

End PairwiseMean.


Lemma calculateStyleMatch_bounds items :
  (0 <= calculateStyleMatch items)%Q ∧ (calculateStyleMatch items <= 1)%Q.
Proof.
  apply pairwise_mean_bounds. intros a b. apply style_lookup_bounds.
Qed.




(** ** Sorting and slicing *)

Lemma sort_insert_perm {A} (cmp : A → A → option Q) x (l : list A) :
  sort_insert cmp x l ≡ₚ x :: l.
Proof.
  induction l as [|y l IH]; simpl; [reflexivity|].
  destruct (comes_first cmp y x); [|reflexivity].
  rewrite IH. apply Permutation_swap.
Qed.

Lemma Array_sort_perm {A} (cmp : A → A → option Q) (l : list A) :
  Array_sort cmp l ≡ₚ l.
Proof.
  induction l as [|x l IH]; simpl; [reflexivity|].
  rewrite sort_insert_perm, IH. reflexivity.
Qed.

Section SortByKey.

Context {A : Type}.
Variable cmp : A → A → option Q.
Variable key : A → Q.
Variable P : A → Prop.
Hypothesis cmp_key : ∀ x y, P x → P y → cmp x y = Some (key y - key x)%Q.



End SortByKey.


Lemma slice0_take {A} (l : list A) (e : Z) : ∃ k, slice0 l e = take k l.
Proof. unfold slice0. destruct (e <? 0); eauto. Qed.


Lemma slice0_all {A} (l : list A) (e : Z) :
  Z.of_nat (length l) <= e → slice0 l e = l.
Proof.
  intros He. unfold slice0.
  destruct (Z.ltb_spec e 0); [lia|]. apply take_ge. lia.
Qed.

Lemma elem_of_slice0 {A} (l : list A) (e : Z) (x : A) :
  x ∈ slice0 l e → x ∈ l.
Proof.
  destruct (slice0_take l e) as [k ->]. apply subseteq_take.
Qed.

(** ** The oracles *)

Lemma bind_run {A B} (m : M A) (k : A → M B) (w : World) :
  bind m k w = k (m w).1 (m w).2.
Proof. unfold bind. destruct (m w); reflexivity. Qed.

Lemma keeps_ret {A} (a : A) : keeps_draws (ret a).
Proof. intros w H. exact H. Qed.

Lemma keeps_bind {A B} (m : M A) (k : A → M B) :
  keeps_draws m → (∀ a, keeps_draws (k a)) → keeps_draws (bind m k).
Proof.
  intros Hm Hk w H. rewrite bind_run. apply Hk, Hm, H.
Qed.

Lemma keeps_Math_random : keeps_draws Math_random.
Proof. intros w H k. apply (H (S k)). Qed.

Lemma keeps_performance_now : keeps_draws performance_now.
Proof. intros w H k. apply (H k). Qed.

Lemma keeps_Date_now : keeps_draws Date_now.
Proof. intros w H k. apply (H k). Qed.

Lemma keeps_generateOutfitId : keeps_draws generateOutfitId.
Proof.
  unfold generateOutfitId.
  apply keeps_bind; [apply keeps_Date_now|]. intros t.
  apply keeps_bind; [apply keeps_Math_random|]. intros r.
  apply keeps_ret.
Qed.

(** ** The item selector *)

Lemma selectBestItem_keeps c e pref : keeps_draws (selectBestItem c e pref).
Proof.
  unfold selectBestItem. destruct c; [apply keeps_ret|].
  apply keeps_bind; [apply keeps_Math_random|]. intros r. apply keeps_ret.
Qed.

(** What the selector returns is one of the candidates. *)
Lemma selectBestItem_elem c e pref w x :
  (selectBestItem c e pref w).1 = Some x → x ∈ c.
Proof.
  unfold selectBestItem. destruct c as [|c0 c]; [discriminate|].
  rewrite bind_run. cbn [ret fst].
  set (scored := Array_sort _ _).
  destruct (_ <? 0); [discriminate|].
  intros H. apply fmap_Some in H as ([x' sc] & Hl & ->).
  apply list_elem_of_lookup_2 in Hl. apply subseteq_take in Hl.
  unfold scored in Hl. rewrite Array_sort_perm in Hl.
  apply list_elem_of_In, in_map_iff in Hl as (y & Hy & Hin).
  inversion Hy; subst. apply list_elem_of_In. exact Hin.
Qed.

(** With candidates at hand and a draw in [0, 1), the selector returns
    an item. *)
Lemma selectBestItem_some c e pref w :
  c ≠ [] → unit_draws w → is_Some (selectBestItem c e pref w).1.
Proof.
  intros Hc Hw. unfold selectBestItem. destruct c as [|c0 c]; [done|].
  rewrite bind_run. cbn [ret fst].
  set (scored := Array_sort _ _).
  set (topItems := take _ scored).
  assert (Hlen : (0 < length topItems)%nat).
  { unfold topItems. rewrite length_take.
    assert (length scored = S (length c)) as ->.
    { unfold scored. rewrite Array_sort_perm. simpl. rewrite length_map.
      reflexivity. }
    lia. }
  destruct (Hw 0%nat) as [H0 H1].
  change ((Math_random w).1) with (random_stream w 0%nat).
  set (r := random_stream w 0%nat) in *.
  pose proof (of_nat_pos _ Hlen) as Hpos.
  assert (Hlo : 0 <= Qfloor (r * of_nat (length topItems))).
  { change 0 with (Qfloor 0). apply Qfloor_resp_le. nra. }
  assert (Hhi : Qfloor (r * of_nat (length topItems))
                < Z.of_nat (length topItems)).
  { pose proof (Qfloor_le (r * of_nat (length topItems))) as Hf.
    rewrite Zlt_Qlt. fold (of_nat (length topItems)). nra. }
  destruct (Z.ltb_spec (Qfloor (r * of_nat (length topItems))) 0) as [|_];
    [lia|].
  apply fmap_is_Some, lookup_lt_is_Some. lia.
Qed.

(** ** The assembly loop *)

Lemma allItemsOf_length (o : Outfit) : (3 <= length (allItemsOf o))%nat.
Proof. unfold allItemsOf. simpl. lia. Qed.

Lemma has_sku_elem base pool :
  has_sku base pool = true → sku_id base ∈ map sku_id pool.
Proof.
  unfold has_sku. intros H. apply bool_decide_eq_true in H as [p Hp].
  apply find_some in Hp as [Hin Heq]. apply String.eqb_eq in Heq.
  rewrite <- Heq. apply list_elem_of_In, in_map, Hin.
Qed.

Lemma includes_false p l : includes p l = false → p ∉ l.
Proof. unfold includes. apply bool_decide_eq_false. Qed.

Section EngineProperties.

Variable getProductsByCategory : string → list Product.
Variable getProductById : string → option Product.

Abbreviation tops := (allTops getProductsByCategory).
Abbreviation bottoms := (allBottoms getProductsByCategory).
Abbreviation shoes := (allFootwear getProductsByCategory).
Abbreviation extras := (allAccessories getProductsByCategory).
Abbreviation engine :=
  (generateOutfitRecommendations getProductsByCategory getProductById).

(** *** Filling the slots *)

Lemma fillSlot_keeps pref slot pool sel :
  keeps_draws (fillSlot pref slot pool sel).
Proof.
  unfold fillSlot. destruct slot; [apply keeps_ret|].
  apply keeps_bind; [apply selectBestItem_keeps|].
  intros picked. apply keeps_ret.
Qed.

(** A slot that was empty is filled from the pool, with an item that
    was not selected before, or stays empty. *)
Lemma fillSlot_None pref pool sel w :
  ((fillSlot pref None pool sel w).1 = (None, sel))
  ∨ (∃ p, p ∈ pool ∧ (p ∉ sel)
          ∧ (fillSlot pref None pool sel w).1 = (Some p, (sel ++ [p])%list)).
Proof.
  unfold fillSlot. rewrite bind_run. cbn [ret fst].
  destruct (selectBestItem _ sel pref w).1 as [p|] eqn:E; [|left; done].
  right. exists p. apply selectBestItem_elem in E.
  apply list_elem_of_In, filter_In in E as [Hin Hsel].
  apply negb_true_iff, includes_false in Hsel.
  split; [apply list_elem_of_In, Hin|]. split; done.
Qed.

Lemma fillSlot_None_some pref pool sel w :
  (∃ p, p ∈ pool ∧ (p ∉ sel)) → unit_draws w →
  ∃ p, p ∈ pool ∧ (p ∉ sel)
       ∧ (fillSlot pref None pool sel w).1 = (Some p, (sel ++ [p])%list).
Proof.
  intros (q & Hq & Hnq) Hw.
  destruct (fillSlot_None pref pool sel w) as [H|H]; [|exact H].
  exfalso. unfold fillSlot in H. rewrite bind_run in H. cbn [ret fst] in H.
  destruct (selectBestItem_some
              (List.filter (λ t, negb (includes t sel)) pool) sel pref w)
    as [x Hx]; [|exact Hw|].
  - intros Hnil.
    assert (Hin : In q (List.filter (λ t, negb (includes t sel)) pool)).
    { apply filter_In. split; [apply list_elem_of_In, Hq|].
      apply negb_true_iff. unfold includes.
      apply bool_decide_eq_false. exact Hnq. }
    rewrite Hnil in Hin. exact Hin.
  - rewrite Hx in H. discriminate.
Qed.

Lemma fillSlots_run pref s w :
  fillSlots getProductsByCategory pref s w =
  let r1 := fillSlot pref (s_top s) tops (selectedItems s) w in
  let r2 := fillSlot pref (s_bottom s) bottoms r1.1.2 r1.2 in
  let r3 := fillSlot pref (s_shoe s) shoes r2.1.2 r2.2 in
  (mkSlots r1.1.1 r2.1.1 r3.1.1 r3.1.2, r3.2).
Proof.
  unfold fillSlots. rewrite bind_run.
  destruct (fillSlot pref (s_top s) tops (selectedItems s) w)
    as [[t1 sel1] w1]. cbn [fst snd].
  rewrite bind_run.
  destruct (fillSlot pref (s_bottom s) bottoms sel1 w1) as [[t2 sel2] w2].
  cbn [fst snd]. rewrite bind_run.
  destruct (fillSlot pref (s_shoe s) shoes sel2 w2) as [[t3 sel3] w3].
  reflexivity.
Qed.

Lemma fillSlots_keeps pref s :
  keeps_draws (fillSlots getProductsByCategory pref s).
Proof.
  intros w Hw. rewrite fillSlots_run. cbn zeta. cbn [snd].
  repeat apply fillSlot_keeps. exact Hw.
Qed.

(** *** Accessories *)

Lemma addAccessories_keeps pref sel rounds acc :
  keeps_draws (addAccessories getProductsByCategory pref sel rounds acc).
Proof.
  revert acc. induction rounds as [|rounds IH]; intros acc; simpl.
  - apply keeps_ret.
  - apply keeps_bind; [apply selectBestItem_keeps|]. intros a. apply IH.
Qed.

Lemma addAccessories_length pref sel rounds acc w :
  (length acc
   <= length (addAccessories getProductsByCategory pref sel rounds acc w).1
   <= length acc + rounds)%nat.
Proof.
  revert acc w. induction rounds as [|rounds IH]; intros acc w; simpl.
  - unfold ret; simpl. lia.
  - rewrite bind_run.
    match goal with
    | |- context [addAccessories _ _ _ _ ?a ?w'] =>
        specialize (IH a w'); destruct (selectBestItem _ _ pref w).1
    end; rewrite ?length_app in IH; simpl in IH; lia.
Qed.

Lemma addAccessories_elem pref sel rounds acc w a :
  a ∈ (addAccessories getProductsByCategory pref sel rounds acc w).1 →
  a ∈ acc ∨ a ∈ extras.
Proof.
  revert acc w. induction rounds as [|rounds IH]; intros acc w; simpl.
  - unfold ret; simpl. auto.
  - rewrite bind_run. intros H. apply IH in H.
    destruct (selectBestItem _ _ pref w).1 as [x|] eqn:E; [|exact H].
    destruct H as [H|H]; [|right; exact H].
    apply elem_of_app in H as [H|H]; [left; exact H|].
    apply list_elem_of_singleton in H as ->.
    apply selectBestItem_elem in E.
    apply list_elem_of_In, filter_In in E as [Hin _].
    right. apply list_elem_of_In, Hin.
Qed.

(** The first round finds an accessory whenever the pool has one. *)
Lemma addAccessories_first pref sel rounds w :
  extras ≠ [] → unit_draws w →
  (1 <= length (addAccessories getProductsByCategory pref sel
                  (S rounds) [] w).1)%nat.
Proof.
  intros Hne Hw. cbn [addAccessories]. rewrite bind_run.
  destruct (selectBestItem_some
              (List.filter (λ a, negb (includes a [])) extras)
              (sel ++ [])%list pref w) as [x Hx]; [|exact Hw|].
  - destruct extras as [|e0 es]; [done|]. simpl. discriminate.
  - rewrite Hx.
    match goal with
    | |- context [addAccessories _ _ _ _ ?a ?w'] =>
        pose proof (addAccessories_length pref sel rounds a w') as [H _]
    end.
    exact H.
Qed.

(** *** One attempt *)

Lemma completeOutfit_run pref season attempt t b sh sel w :
  completeOutfit getProductsByCategory pref season attempt t b sh sel w =
  let ra := addAccessories getProductsByCategory pref sel
              (1 + attempt mod 2) [] w in
  let allItems := t :: b :: sh :: ra.1 in
  let totalPrice :=
    fold_left (λ sum item, sum + lowest_price item) allItems 0 in
  let breakdown := scoreItems season allItems in
  let rid := generateOutfitId ra.2 in
  ({| id := rid.1; top := t; bottom := b; footwear := sh;
      accessories := ra.1;
      match_score := round2 (style_match breakdown);
      score_breakdown := breakdown;
      reasoning := generateReasoning breakdown allItems totalPrice;
      total_price := totalPrice;
      tempSortScore := Some (comprehensiveScore breakdown) |}, rid.2).
Proof.
  unfold completeOutfit. rewrite !bind_run. reflexivity.
Qed.

Lemma completeOutfit_keeps pref season attempt t b sh sel :
  keeps_draws
    (completeOutfit getProductsByCategory pref season attempt t b sh sel).
Proof.
  intros w Hw. rewrite completeOutfit_run. cbn zeta. cbn [snd].
  apply keeps_generateOutfitId, addAccessories_keeps, Hw.
Qed.

Lemma attemptBody_keeps pref season base attempt st :
  keeps_draws (attemptBody getProductsByCategory pref season base attempt st).
Proof.
  unfold attemptBody. apply keeps_bind; [apply fillSlots_keeps|].
  intros s. destruct (s_top s), (s_bottom s), (s_shoe s);
    try apply keeps_ret.
  destruct (bool_decide _); [apply keeps_ret|].
  apply keeps_bind; [apply completeOutfit_keeps|]. intros o.
  apply keeps_ret.
Qed.

(** An attempt leaves the state alone or appends one outfit whose key
    was not used before. *)
Lemma attemptBody_step w0 pref season base attempt st w :
  (unit_draws w0 → unit_draws w) →
  let st' :=
    (attemptBody getProductsByCategory pref season base attempt st w).1 in
  st' = st
  ∨ ∃ o, assembled getProductsByCategory w0 pref season base o
         ∧ (outfitKey o ∉ usedCombinations st)
         ∧ st' = mkLoopState (ls_outfits st ++ [o])%list
                   ({[ outfitKey o ]} ∪ usedCombinations st).
Proof.
  intros Hw. cbn zeta. unfold attemptBody. rewrite bind_run.
  destruct (s_top _) as [t|] eqn:Et; [|left; reflexivity].
  destruct (s_bottom _) as [b|] eqn:Eb; [|left; reflexivity].
  destruct (s_shoe _) as [sh|] eqn:Es; [|left; reflexivity].
  destruct (bool_decide _) eqn:Ek; [left; reflexivity|].
  apply bool_decide_eq_false in Ek.
  right. rewrite bind_run. cbn [ret fst].
  match goal with
  | |- context [(completeOutfit ?g ?p ?se ?a ?t ?b ?sh ?sel ?w').1] =>
      set (o := (completeOutfit g p se a t b sh sel w').1)
  end.
  assert (Ho : top o = t ∧ bottom o = b ∧ footwear o = sh).
  { unfold o. rewrite completeOutfit_run. done. }
  destruct Ho as (Ht & Hb & Hs).
  exists o. unfold outfitKey. rewrite Ht, Hb, Hs.
  split; [|split; [exact Ek|reflexivity]].
  exists attempt, w. cbn zeta. rewrite Ht, Hb, Hs, Et, Eb, Es.
  split; [exact Hw|]. done.
Qed.

(** *** The loop *)

Lemma LoopInv_init w0 pref season base :
  LoopInv getProductsByCategory w0 pref season base (mkLoopState [] ∅).
Proof.
  split; simpl.
  - constructor.
  - intros o H. inversion H.
  - constructor.
Qed.

Lemma LoopInv_step w0 pref season base attempt st w :
  (unit_draws w0 → unit_draws w) →
  LoopInv getProductsByCategory w0 pref season base st →
  LoopInv getProductsByCategory w0 pref season base
    (attemptBody getProductsByCategory pref season base attempt st w).1.
Proof.
  intros Hw [Ha Hu Hn].
  destruct (attemptBody_step w0 pref season base attempt st w Hw)
    as [->|(o & Ho & Hk & ->)]; [split; assumption|].
  split; simpl.
  - apply Forall_app. split; [exact Ha|]. constructor; [exact Ho|constructor].
  - intros o' H. apply elem_of_app in H as [H|H].
    + apply elem_of_union_r, Hu, H.
    + apply list_elem_of_singleton in H as ->.
      apply elem_of_union_l, elem_of_singleton. reflexivity.
  - rewrite map_app. simpl. apply NoDup_app. split; [exact Hn|].
    split; [|apply NoDup_singleton].
    intros k Hk1 Hk2. apply list_elem_of_singleton in Hk2 as ->.
    apply list_elem_of_In, in_map_iff in Hk1 as (o' & Heq & Hin).
    apply Hk. rewrite <- Heq. apply Hu, list_elem_of_In, Hin.
Qed.

Lemma attemptLoop_inv w0 pref season n base fuel attempt st w :
  (unit_draws w0 → unit_draws w) →
  LoopInv getProductsByCategory w0 pref season base st →
  let r := attemptLoop getProductsByCategory pref season n base
             fuel attempt st w in
  LoopInv getProductsByCategory w0 pref season base r.1
  ∧ (unit_draws w0 → unit_draws r.2).
Proof.
  revert attempt st w.
  induction fuel as [|fuel IH]; intros attempt st w Hw Hinv; simpl.
  - split; assumption.
  - destruct (_ && _); [|split; assumption].
    rewrite bind_run. apply IH.
    + intros H0. apply attemptBody_keeps, Hw, H0.
    + apply LoopInv_step; assumption.
Qed.

(** The loop never needs more than [numOutfits * 5] rounds: with that
    many rounds or more allowed, the outcome is the same. *)
Lemma attemptLoop_fuel pref season n base fuel extra attempt st w :
  (Z.to_nat (n * 5) <= attempt + fuel)%nat →
  attemptLoop getProductsByCategory pref season n base
    (fuel + extra) attempt st w
  = attemptLoop getProductsByCategory pref season n base fuel attempt st w.
Proof.
  revert attempt st w.
  induction fuel as [|fuel IH]; intros attempt st w Hf; simpl.
  - destruct extra as [|extra]; simpl; [reflexivity|].
    destruct (Z.ltb_spec (Z.of_nat attempt) (n * 5)); [lia|]. reflexivity.
  - destruct (_ && _); [|reflexivity].
    rewrite !bind_run. apply IH. lia.
Qed.

(** *** The response *)

Lemma generate_resolved request base w :
  getProductById (base_product_id request) = Some base →
  outfits (engine request w).1 =
    slice0 (map deleteSortScore
              (Array_sort bySortScore
                 (ls_outfits
                    (finalState getProductsByCategory request base w))))
           (numOutfits request)
  ∧ base_product (engine request w).1 = Resolved base
  ∧ cache_hit (engine request w).1 = false.
Proof.
  intros Hb. unfold generateOutfitRecommendations, finalState.
  rewrite bind_run, Hb. cbn zeta. rewrite !bind_run. done.
Qed.

Lemma finalState_inv request base w :
  LoopInv getProductsByCategory w (preferred_style request)
    (req_season request) base
    (finalState getProductsByCategory request base w).
Proof.
  unfold finalState. apply attemptLoop_inv.
  - intros H. apply keeps_performance_now, H.
  - apply LoopInv_init.
Qed.

(** Every outfit of a response is an assembled outfit without its
    sort score. *)
Lemma response_outfit request base w o :
  getProductById (base_product_id request) = Some base →
  o ∈ outfits (engine request w).1 →
  ∃ o', assembled getProductsByCategory w (preferred_style request)
          (req_season request) base o'
        ∧ o' ∈ ls_outfits (finalState getProductsByCategory request base w)
        ∧ o = deleteSortScore o'.
Proof.
  intros Hb Ho.
  destruct (generate_resolved request base w Hb) as (-> & _ & _) in Ho.
  apply elem_of_slice0, list_elem_of_In, in_map_iff in Ho
    as (o' & <- & Hin).
  apply list_elem_of_In in Hin. rewrite Array_sort_perm in Hin.
  exists o'. split; [|split; [exact Hin|reflexivity]].
  pose proof (inv_assembled _ _ _ _ _ _ (finalState_inv request base w)) as H.
  rewrite Forall_forall in H. apply H, Hin.
Qed.

End EngineProperties.

(** * The claims of the specification *)

Section Claims.

Variable getProductsByCategory : string → list Product.
Variable getProductById : string → option Product.

Abbreviation tops := (allTops getProductsByCategory).
Abbreviation bottoms := (allBottoms getProductsByCategory).
Abbreviation shoes := (allFootwear getProductsByCategory).
Abbreviation extras := (allAccessories getProductsByCategory).
Abbreviation engine :=
  (generateOutfitRecommendations getProductsByCategory getProductById).

(** An unresolved base product gives the empty response. *)
Lemma generate_unresolved request w :
  getProductById (base_product_id request) = None →
  (engine request w).1
  = emptyResponse (perf_stream w 1 - perf_stream w 0)%Q.
Proof.
  intros Hb. unfold generateOutfitRecommendations.
  rewrite bind_run, Hb, bind_run. reflexivity.
Qed.

(** Every outfit of any response comes from an assembled outfit. *)
Lemma response_outfit_assembled request w o :
  o ∈ outfits (engine request w).1 →
  ∃ base o',
    getProductById (base_product_id request) = Some base
    ∧ assembled getProductsByCategory w (preferred_style request)
        (req_season request) base o'
    ∧ o = deleteSortScore o'.
Proof.
  intros Ho.
  destruct (getProductById (base_product_id request)) as [base|] eqn:Hb.
  - destruct (response_outfit _ _ request base w o Hb Ho)
      as (o' & Ha & _ & ->).
    exists base, o'. done.
  - rewrite (generate_unresolved request w Hb) in Ho. inversion Ho.
Qed.

(** What [completeOutfit] stores in an assembled outfit. *)
Lemma assembled_fields w0 pref season base o :
  assembled getProductsByCategory w0 pref season base o →
  score_breakdown o = scoreItems season (allItemsOf o)
  ∧ match_score o = round2 (style_match (score_breakdown o))
  ∧ tempSortScore o = Some (comprehensiveScore (score_breakdown o))
  ∧ total_price o
    = fold_left (λ sum item, sum + lowest_price item) (allItemsOf o) 0.
Proof.
  intros (attempt & w & _ & _ & _ & _ & Ho).
  rewrite completeOutfit_run in Ho. cbn zeta in Ho. cbn [fst] in Ho.
  rewrite Ho. unfold allItemsOf. cbn. done.
Qed.

(** C1: for every outfit in a response of
    [generateOutfitRecommendations], the reported [match_score] is the
    [style_match] value of the outfit's breakdown rounded to two
    decimal places: it is a whole number of hundredths, between 0 and
    1, and no further from [style_match] than half a hundredth, up to
    the rounding of doubles.  It is not the composite score used for
    ranking, as the scenario run shows, where the match score is 1
    and the composite score is below 0.97. *)
Theorem match_score_is_rounded_style_match :
  (∀ request w o,
     o ∈ outfits
           (generateOutfitRecommendations getProductsByCategory
              getProductById request w).1 →
     ∃ k : Z,
       0 <= k <= 100
       ∧ (match_score o == inject_Z k / 100)%Q
       ∧ (Qabs (match_score o - style_match (score_breakdown o))
          <= 1 / 200 + double_slack)%Q)
  ∧ (∃ o,
       outfits (recommend scenario (request_for "TOP_001" (Some 1))
                  (steady 0)).1 = [o]
       ∧ (match_score o == 1)%Q
       ∧ (comprehensiveScore (score_breakdown o) < 0.97)%Q).
Proof.
  split.
  - intros request w o Ho.
    destruct (response_outfit_assembled request w o Ho)
      as (base & o' & _ & Ha & ->).
    apply assembled_fields in Ha as (Hb & Hm & _).
    cbn [deleteSortScore match_score score_breakdown]. rewrite Hm.
    assert (Hs : (0 <= style_match (score_breakdown o'))%Q
                 ∧ (style_match (score_breakdown o') <= 1)%Q).
    { rewrite Hb. cbn [scoreItems style_match].
      apply calculateStyleMatch_bounds. }
    destruct Hs as [Hs0 Hs1].
    destruct (round2_nearest (style_match (score_breakdown o')))
      as (k & Hk & Hr & _ & Hn).
    exists k. split; [|split].
    + rewrite Hk. apply Math_round_bounds; lra.
    + exact Hr.
    + assert (Hd : (0 <= double_slack)%Q) by (vm_compute; discriminate).
      eapply Qle_trans; [exact Hn|].
      revert Hd. generalize double_slack. intros d Hd.
      change (1 / 200)%Q with (1 # 200)%Q. lra.
  - eexists. split; [vm_compute; reflexivity|].
    split; vm_compute; reflexivity.
Qed.


(** C4: a request whose [base_product_id] does not resolve gets a
    well-formed response and no failure: the outfit list is empty,
    the base product is the placeholder, [cache_hit] is false, and the
    timing field is the time elapsed between the two clock readings,
    which is not negative when the clock does not run backwards. *)
Theorem unresolved_base_gives_empty_response request w :
  let response :=
    (generateOutfitRecommendations getProductsByCategory getProductById
       request w).1 in
  getProductById (base_product_id request) = None →
  response = emptyResponse (perf_stream w 1 - perf_stream w 0)%Q
  ∧ outfits response = []
  ∧ base_product response = EmptyObject
  ∧ cache_hit response = false
  ∧ ((perf_stream w 0 <= perf_stream w 1)%Q →
     (0 <= processing_time_ms response)%Q).
Proof.
  cbn zeta. intros Hb. rewrite (generate_unresolved request w Hb).
  cbn. repeat split. intros H. lra.
Qed.

(** *** Ranking *)



(** *** Where the slots come from *)

Lemma assignBase_cases base :
  (has_sku base tops = true
   ∧ assignBase getProductsByCategory base
     = mkSlots (Some base) None None [base])
  ∨ (has_sku base tops = false ∧ has_sku base bottoms = true
     ∧ assignBase getProductsByCategory base
       = mkSlots None (Some base) None [base])
  ∨ (has_sku base tops = false ∧ has_sku base bottoms = false
     ∧ has_sku base shoes = true
     ∧ assignBase getProductsByCategory base
       = mkSlots None None (Some base) [base])
  ∨ (has_sku base tops = false ∧ has_sku base bottoms = false
     ∧ has_sku base shoes = false
     ∧ assignBase getProductsByCategory base = mkSlots None None None []).
Proof.
  unfold assignBase, baseCategory.
  destruct (has_sku base tops); [left; done|].
  destruct (has_sku base bottoms); [right; left; done|].
  destruct (has_sku base shoes); [right; right; left; done|].
  right; right; right; done.
Qed.

Lemma fillSlot_origin pref slot pool sel w t :
  (∀ b, slot = Some b → has_sku b pool = true) →
  (fillSlot pref slot pool sel w).1.1 = Some t →
  sku_id t ∈ map sku_id pool.
Proof.
  destruct slot as [b|]; intros Hs H.
  - unfold fillSlot, ret in H. simpl in H. injection H as <-.
    apply has_sku_elem, Hs. reflexivity.
  - destruct (fillSlot_None pref pool sel w) as [E|(p & Hp & _ & E)];
      rewrite E in H; simpl in H; [discriminate|].
    injection H as <-. apply list_elem_of_In, in_map, list_elem_of_In, Hp.
Qed.

(** The three mandatory items of an assembled outfit carry sku ids of
    the tops, bottoms and footwear pools, in this order. *)
Lemma assembled_origin w0 pref season base o :
  assembled getProductsByCategory w0 pref season base o →
  sku_id (top o) ∈ map sku_id tops
  ∧ sku_id (bottom o) ∈ map sku_id bottoms
  ∧ sku_id (footwear o) ∈ map sku_id shoes.
Proof.
  intros (attempt & w & _ & Ht & Hb & Hs & _).
  rewrite fillSlots_run in Ht, Hb, Hs. cbn zeta in Ht, Hb, Hs.
  cbn [fst s_top s_bottom s_shoe] in Ht, Hb, Hs.
  destruct (assignBase_cases base)
    as [(H1 & E)|[(_ & H2 & E)|[(_ & _ & H3 & E)|(_ & _ & _ & E)]]];
    rewrite E in Ht, Hb, Hs; cbn [s_top s_bottom s_shoe] in Ht, Hb, Hs;
    (split; [|split]);
    (eapply fillSlot_origin; [|eassumption]);
    intros b' [= <-]; assumption.
Qed.

(** A base product found in the tops, bottoms or footwear pool sits in
    the slot of that pool. *)
Lemma assembled_base_slot w0 pref season base o :
  assembled getProductsByCategory w0 pref season base o →
  (baseCategory getProductsByCategory base = "tops" → top o = base)
  ∧ (baseCategory getProductsByCategory base = "bottoms" → bottom o = base)
  ∧ (baseCategory getProductsByCategory base = "footwear"
     → footwear o = base).
Proof.
  intros (attempt & w & _ & Ht & Hb & Hs & _).
  rewrite fillSlots_run in Ht, Hb, Hs. cbn zeta in Ht, Hb, Hs.
  cbn [fst s_top s_bottom s_shoe] in Ht, Hb, Hs.
  unfold baseCategory.
  destruct (assignBase_cases base)
    as [(H1 & E)|[(H1 & H2 & E)|[(H1 & H2 & H3 & E)|(H1 & H2 & H3 & E)]]];
    rewrite E in Ht, Hb, Hs; cbn [s_top s_bottom s_shoe] in Ht, Hb, Hs;
    rewrite ?H1, ?H2, ?H3;
    (split; [|split]); intros Hc; try discriminate Hc;
    unfold fillSlot, ret in Ht, Hb, Hs; simpl in Ht, Hb, Hs; congruence.
Qed.

(** In every outfit of a response the base product sits in the slot of
    its pool when that pool is the tops, the bottoms or the footwear;
    [assignBase] does nothing of the kind for the fourth category. *)
Lemma base_product_in_its_slot request w base o :
  getProductById (base_product_id request) = Some base →
  o ∈ outfits (engine request w).1 →
  (baseCategory getProductsByCategory base = "tops" → top o = base)
  ∧ (baseCategory getProductsByCategory base = "bottoms" → bottom o = base)
  ∧ (baseCategory getProductsByCategory base = "footwear"
     → footwear o = base).
Proof.
  intros Hb Ho.
  destruct (response_outfit_assembled request w o Ho)
    as (base' & o' & Hb' & Ha & ->).
  rewrite Hb in Hb'. injection Hb' as <-.
  exact (assembled_base_slot _ _ _ _ _ Ha).
Qed.

(** *** Deduplication *)

Lemma response_keys_NoDup request w :
  NoDup (outfitKey <$> outfits (engine request w).1).
Proof.
  destruct (getProductById (base_product_id request)) as [base|] eqn:Hb.
  - destruct (generate_resolved getProductsByCategory getProductById
                request base w Hb) as (-> & _ & _).
    destruct (slice0_take
                (map deleteSortScore
                   (Array_sort bySortScore
                      (ls_outfits (finalState getProductsByCategory
                                     request base w))))
                (numOutfits request)) as [k ->].
    rewrite fmap_take.
    eapply sublist_NoDup; [|apply sublist_take].
    change (map deleteSortScore ?l) with (deleteSortScore <$> l).
    rewrite <- list_fmap_compose.
    change (outfitKey ∘ deleteSortScore) with outfitKey.
    rewrite Array_sort_perm.
    exact (inv_nodup _ _ _ _ _ _
             (finalState_inv getProductsByCategory request base w)).
  - rewrite (generate_unresolved request w Hb). constructor.
Qed.

Lemma slotIds_perm_eq (T B F : list string) a b c a' b' c' :
  (∀ x, x ∈ T → x ∈ B → False) →
  (∀ x, x ∈ T → x ∈ F → False) →
  (∀ x, x ∈ B → x ∈ F → False) →
  a ∈ T → a' ∈ T → b ∈ B → b' ∈ B → c ∈ F → c' ∈ F →
  [a; b; c] ≡ₚ [a'; b'; c'] →
  a = a' ∧ b = b' ∧ c = c'.
Proof.
  intros D1 D2 D3 Ha Ha' Hb Hb' Hc Hc' Hp.
  assert (Hin : ∀ x, x ∈ [a; b; c] → x ∈ [a'; b'; c']).
  { intros x Hx. rewrite <- Hp. exact Hx. }
  assert (Hia : a = a' ∨ a = b' ∨ a = c' ∨ False).
  { specialize (Hin a). rewrite !elem_of_cons, !elem_of_nil in Hin.
    apply Hin. auto. }
  assert (Hib : b = a' ∨ b = b' ∨ b = c' ∨ False).
  { specialize (Hin b). rewrite !elem_of_cons, !elem_of_nil in Hin.
    apply Hin. auto. }
  assert (Hic : c = a' ∨ c = b' ∨ c = c' ∨ False).
  { specialize (Hin c). rewrite !elem_of_cons, !elem_of_nil in Hin.
    apply Hin. auto. }
  destruct Hia as [Ea|[Ea|[Ea|[]]]];
    [|subst a; destruct (D1 _ Ha Hb')|subst a; destruct (D2 _ Ha Hc')].
  destruct Hib as [Eb|[Eb|[Eb|[]]]];
    [subst b; destruct (D1 _ Ha' Hb)| |subst b; destruct (D3 _ Hb Hc')].
  destruct Hic as [Ec|[Ec|[Ec|[]]]];
    [subst c; destruct (D2 _ Ha' Hc)|subst c; destruct (D3 _ Hb' Hc)|].
  done.
Qed.

(** C3: in a response no two outfits have the same unordered triple
    of sku ids (top, bottom, footwear), whatever their accessories;
    the pools are those of the data model, which share no sku id. *)
Theorem no_two_outfits_share_a_triple request w i j o1 o2 :
  let response :=
    (generateOutfitRecommendations getProductsByCategory getProductById
       request w).1 in
  pools_disjoint getProductsByCategory →
  i ≠ j →
  outfits response !! i = Some o1 →
  outfits response !! j = Some o2 →
  ¬ (slotIds o1 ≡ₚ slotIds o2).
Proof.
  cbn zeta. intros (D1 & D2 & D3) Hij H1 H2 Hperm.
  assert (Horigin : ∀ o, o ∈ outfits (engine request w).1 →
            sku_id (top o) ∈ map sku_id tops
            ∧ sku_id (bottom o) ∈ map sku_id bottoms
            ∧ sku_id (footwear o) ∈ map sku_id shoes).
  { intros o Ho.
    destruct (response_outfit_assembled request w o Ho)
      as (base & o' & _ & Ha & ->).
    exact (assembled_origin _ _ _ _ _ Ha). }
  destruct (Horigin o1) as (Ht1 & Hb1 & Hs1);
    [eapply list_elem_of_lookup_2, H1|].
  destruct (Horigin o2) as (Ht2 & Hb2 & Hs2);
    [eapply list_elem_of_lookup_2, H2|].
  destruct (slotIds_perm_eq _ _ _ _ _ _ _ _ _ D1 D2 D3
              Ht1 Ht2 Hb1 Hb2 Hs1 Hs2 Hperm) as (Et & Eb & Es).
  apply Hij.
  apply (NoDup_lookup _ i j (outfitKey o1) (response_keys_NoDup request w)).
  - rewrite list_lookup_fmap, H1. reflexivity.
  - rewrite list_lookup_fmap, H2. unfold outfitKey, combinationKey.
    rewrite Et, Eb, Es. reflexivity.
Qed.

(** *** Accessories *)

Lemma assembled_accessories w0 pref season base o :
  assembled getProductsByCategory w0 pref season base o →
  ∃ attempt sel w1,
    (unit_draws w0 → unit_draws w1)
    ∧ accessories o
      = (addAccessories getProductsByCategory pref sel
           (1 + attempt mod 2) [] w1).1.
Proof.
  intros (attempt & w & Hw & _ & _ & _ & Ho).
  rewrite completeOutfit_run in Ho. cbn zeta in Ho. cbn [fst] in Ho.
  eexists attempt, _, _. split; [|rewrite Ho at 1; reflexivity].
  intros H0. apply fillSlots_keeps, Hw, H0.
Qed.

(** C7, as amended: every outfit returned has exactly one top, one
    bottom and one footwear item, carrying sku ids of the tops, bottoms
    and footwear pools, and an ordered sequence of at most 2
    accessories, all from the accessory pool; it has at least 1
    accessory whenever that pool is not empty. *)
Theorem accessories_at_most_two request w o :
  let response :=
    (generateOutfitRecommendations getProductsByCategory getProductById
       request w).1 in
  o ∈ outfits response →
  sku_id (top o) ∈ map sku_id (allTops getProductsByCategory)
  ∧ sku_id (bottom o) ∈ map sku_id (allBottoms getProductsByCategory)
  ∧ sku_id (footwear o) ∈ map sku_id (allFootwear getProductsByCategory)
  ∧ (length (accessories o) <= 2)%nat
  ∧ (∀ a, a ∈ accessories o → a ∈ allAccessories getProductsByCategory)
  ∧ (allAccessories getProductsByCategory ≠ [] → unit_draws w →
     (1 <= length (accessories o))%nat).
Proof.
  cbn zeta. intros Ho.
  destruct (response_outfit_assembled request w o Ho)
    as (base & o' & _ & Ha & ->).
  destruct (assembled_origin _ _ _ _ _ Ha) as (Ht & Hb & Hs).
  apply assembled_accessories in Ha as (attempt & sel & w1 & Hw & Hacc).
  cbn [deleteSortScore accessories top bottom footwear]. rewrite Hacc.
  split; [exact Ht|]. split; [exact Hb|]. split; [exact Hs|].
  split; [|split].
  - pose proof (addAccessories_length getProductsByCategory
                  (preferred_style request) sel
                  (1 + attempt mod 2) [] w1) as [_ H].
    pose proof (Nat.mod_upper_bound attempt 2 ltac:(lia)).
    eapply Nat.le_trans; [exact H|]. cbn [length]. lia.
  - intros a Hin.
    apply addAccessories_elem in Hin as [Hin|Hin]; [inversion Hin|exact Hin].
  - intros Hne Hu. apply addAccessories_first; [exact Hne|apply Hw, Hu].
Qed.

(** *** The default number of outfits *)

Lemma fillSlot_fills pref pool sel w :
  pool ≠ [] →
  (∀ q, q ∈ sel → sku_id q ∈ map sku_id pool → False) →
  unit_draws w →
  ∃ p, p ∈ pool
       ∧ (fillSlot pref None pool sel w).1 = (Some p, (sel ++ [p])%list).
Proof.
  intros Hne Hsel Hw.
  destruct (fillSlot_None_some pref pool sel w) as (p & Hp & _ & E);
    [|exact Hw|exists p; done].
  destruct pool as [|p0 pool]; [done|].
  exists p0. split; [left|].
  intros Hin. apply (Hsel p0 Hin). simpl. left.
Qed.

(** With non-empty pools that share no sku id, an attempt fills all
    three mandatory slots. *)
Lemma fillSlots_complete pref base w :
  pools_disjoint getProductsByCategory →
  tops ≠ [] → bottoms ≠ [] → shoes ≠ [] →
  unit_draws w →
  let s := (fillSlots getProductsByCategory pref
              (assignBase getProductsByCategory base) w).1 in
  is_Some (s_top s) ∧ is_Some (s_bottom s) ∧ is_Some (s_shoe s).
Proof.
  intros (D1 & D2 & D3) HT HB HF Hw. cbn zeta.
  rewrite fillSlots_run. cbn zeta. cbn [fst s_top s_bottom s_shoe].
  assert (Hin : ∀ (p : Product) l, p ∈ l → sku_id p ∈ map sku_id l).
  { intros p l Hp. apply list_elem_of_In, in_map, list_elem_of_In, Hp. }
  destruct (assignBase_cases base)
    as [(H1 & E)|[(_ & H2 & E)|[(_ & _ & H3 & E)|(_ & _ & _ & E)]]];
    rewrite E; cbn [s_top s_bottom s_shoe selectedItems].
  - apply has_sku_elem in H1.
    change (fillSlot pref (Some base) tops [base] w)
      with (Some base, [base], w). cbn [fst snd].
    destruct (fillSlot_fills pref bottoms [base] w HB) as (b & Hb & Eb);
      [|exact Hw|].
    { intros q Hq Hs. apply list_elem_of_singleton in Hq as ->.
      exact (D1 _ H1 Hs). }
    rewrite Eb. cbn [fst snd].
    destruct (fillSlot_fills pref shoes [base; b]
                (fillSlot pref None bottoms [base] w).2 HF)
      as (f & Hf & Ef); [|apply fillSlot_keeps, Hw|].
    { intros q Hq Hs. rewrite !elem_of_cons, elem_of_nil in Hq.
      destruct Hq as [->|[->|[]]];
        [exact (D2 _ H1 Hs)|exact (D3 _ (Hin _ _ Hb) Hs)]. }
    change ([base] ++ [b])%list with [base; b]. rewrite Ef. cbn [fst].
    eauto.
  - apply has_sku_elem in H2.
    destruct (fillSlot_fills pref tops [base] w HT) as (t & Ht & Et);
      [|exact Hw|].
    { intros q Hq Hs. apply list_elem_of_singleton in Hq as ->.
      exact (D1 _ Hs H2). }
    rewrite Et. cbn [fst snd]. change ([base] ++ [t])%list with [base; t].
    change (fillSlot pref (Some base) bottoms [base; t] ?w')
      with (Some base, [base; t], w'). cbn [fst snd].
    destruct (fillSlot_fills pref shoes [base; t]
                (fillSlot pref None tops [base] w).2 HF)
      as (f & Hf & Ef); [|apply fillSlot_keeps, Hw|].
    { intros q Hq Hs. rewrite !elem_of_cons, elem_of_nil in Hq.
      destruct Hq as [->|[->|[]]];
        [exact (D3 _ H2 Hs)|exact (D2 _ (Hin _ _ Ht) Hs)]. }
    rewrite Ef. cbn [fst]. eauto.
  - apply has_sku_elem in H3.
    destruct (fillSlot_fills pref tops [base] w HT) as (t & Ht & Et);
      [|exact Hw|].
    { intros q Hq Hs. apply list_elem_of_singleton in Hq as ->.
      exact (D2 _ Hs H3). }
    rewrite Et. cbn [fst snd]. change ([base] ++ [t])%list with [base; t].
    destruct (fillSlot_fills pref bottoms [base; t]
                (fillSlot pref None tops [base] w).2 HB)
      as (b & Hb & Eb); [|apply fillSlot_keeps, Hw|].
    { intros q Hq Hs. rewrite !elem_of_cons, elem_of_nil in Hq.
      destruct Hq as [->|[->|[]]];
        [exact (D3 _ Hs H3)|exact (D1 _ (Hin _ _ Ht) Hs)]. }
    rewrite Eb. cbn [fst snd]. eauto.
  - destruct (fillSlot_fills pref tops [] w HT) as (t & Ht & Et);
      [|exact Hw|].
    { intros q Hq. inversion Hq. }
    rewrite Et. cbn [fst snd]. change ([] ++ [t])%list with [t].
    destruct (fillSlot_fills pref bottoms [t]
                (fillSlot pref None tops [] w).2 HB)
      as (b & Hb & Eb); [|apply fillSlot_keeps, Hw|].
    { intros q Hq Hs. apply list_elem_of_singleton in Hq as ->.
      exact (D1 _ (Hin _ _ Ht) Hs). }
    rewrite Eb. cbn [fst snd]. change ([t] ++ [b])%list with [t; b].
    destruct (fillSlot_fills pref shoes [t; b]
                (fillSlot pref None bottoms [t]
                   (fillSlot pref None tops [] w).2).2 HF)
      as (f & Hf & Ef); [|do 2 apply fillSlot_keeps; exact Hw|].
    { intros q Hq Hs. rewrite !elem_of_cons, elem_of_nil in Hq.
      destruct Hq as [->|[->|[]]];
        [exact (D2 _ (Hin _ _ Ht) Hs)|exact (D3 _ (Hin _ _ Hb) Hs)]. }
    rewrite Ef. cbn [fst]. eauto.
Qed.

Lemma attemptBody_length pref season base attempt st w :
  (length (ls_outfits st)
   <= length (ls_outfits
                (attemptBody getProductsByCategory pref season base
                   attempt st w).1))%nat.
Proof.
  destruct (attemptBody_step getProductsByCategory w pref season base
              attempt st w (λ H, H)) as [->|(o & _ & _ & ->)]; [lia|].
  cbn [ls_outfits]. rewrite length_app. lia.
Qed.

Lemma attemptLoop_length pref season n base fuel attempt st w :
  (length (ls_outfits st)
   <= length (ls_outfits
                (attemptLoop getProductsByCategory pref season n base
                   fuel attempt st w).1))%nat.
Proof.
  revert attempt st w.
  induction fuel as [|fuel IH]; intros attempt st w; simpl; [lia|].
  destruct (_ && _); [|simpl; lia].
  rewrite bind_run.
  etrans; [apply (attemptBody_length pref season base attempt st w)|].
  apply IH.
Qed.

Lemma attemptLoop_S pref season n base fuel attempt st w :
  attemptLoop getProductsByCategory pref season n base (S fuel) attempt st w
  = if (Z.of_nat attempt <? n * 5)
       && (Z.of_nat (length (ls_outfits st)) <? n)
    then
      let r := attemptBody getProductsByCategory pref season base
                 attempt st w in
      attemptLoop getProductsByCategory pref season n base fuel
        (S attempt) r.1 r.2
    else (st, w).
Proof.
  cbn [attemptLoop]. destruct (_ && _); [|reflexivity].
  rewrite bind_run. reflexivity.
Qed.

(** The first attempt of a run adds an outfit when all slots can be
    filled: no key has been used yet. *)
Lemma attemptBody_first pref season base attempt w :
  pools_disjoint getProductsByCategory →
  tops ≠ [] → bottoms ≠ [] → shoes ≠ [] →
  unit_draws w →
  length (ls_outfits
            (attemptBody getProductsByCategory pref season base attempt
               (mkLoopState [] ∅) w).1) = 1%nat.
Proof.
  intros HD HT HB HF Hw.
  destruct (fillSlots_complete pref base w HD HT HB HF Hw)
    as ([t Et] & [b Eb] & [f Ef]).
  unfold attemptBody. rewrite bind_run, Et, Eb, Ef.
  cbn [usedCombinations].
  rewrite bool_decide_eq_false_2 by set_solver.
  rewrite bind_run. reflexivity.
Qed.

(** C10, as amended: a request with [num_outfits] equal to 0 is
    served exactly as a request for 3 outfits, the default (0 is
    falsy); with a resolvable base product it therefore returns at
    least one outfit, and at most three, whenever the tops, bottoms
    and footwear pools are non-empty and share no sku id. *)
Theorem zero_outfits_means_three request w :
  let generate :=
    generateOutfitRecommendations getProductsByCategory getProductById in
  num_outfits request = Some 0 →
  generate request w = generate (with_num_outfits (Some 3) request) w
  ∧ generate request w = generate (with_num_outfits None request) w
  ∧ (∀ base,
       getProductById (base_product_id request) = Some base →
       pools_disjoint getProductsByCategory →
       allTops getProductsByCategory ≠ [] →
       allBottoms getProductsByCategory ≠ [] →
       allFootwear getProductsByCategory ≠ [] →
       unit_draws w →
       (1 <= length (outfits (generate request w).1) <= 3)%nat).
Proof.
  cbn zeta. intros H0.
  assert (Hn : numOutfits request = 3) by (unfold numOutfits; rewrite H0; done).
  split; [|split].
  - unfold generateOutfitRecommendations. rewrite Hn. reflexivity.
  - unfold generateOutfitRecommendations. rewrite Hn. reflexivity.
  - intros base Hb HD HT HB HF Hw.
    destruct (generate_resolved getProductsByCategory getProductById
                request base w Hb) as (-> & _ & _).
    rewrite Hn. unfold slice0. cbn [Z.ltb Z.compare Z.to_nat Pos.to_nat
                                     Pos.iter_op Nat.add].
    rewrite length_take, length_map, Array_sort_perm.
    split; [|lia].
    assert (1 <= length (ls_outfits
              (finalState getProductsByCategory request base w)))%nat;
      [|lia].
    unfold finalState. rewrite Hn.
    change (Z.to_nat (3 * 5)) with 15%nat.
    rewrite attemptLoop_S. cbn [ls_outfits length].
    change ((Z.of_nat 0 <? 3 * 5) && (Z.of_nat 0 <? 3)) with true.
    cbn iota zeta.
    etrans; [|apply attemptLoop_length].
    rewrite attemptBody_first
      by (try assumption; apply keeps_performance_now, Hw).
    lia.
Qed.

End Claims.

(** C8: the color-harmony matrix and the style-compatibility matrix are
    symmetric, and both have an entry for every pair of their enum. *)
Theorem matrices_symmetric_and_total :
  (∀ a b : ColorFamily, color_entry a b = color_entry b a)
  ∧ (∀ a b : ColorFamily, is_Some (color_entry a b))
  ∧ (∀ a b : StyleType, style_entry a b = style_entry b a)
  ∧ (∀ a b : StyleType, is_Some (style_entry a b)).
Proof.
  repeat split; intros [] []; vm_compute; eauto.
Qed.

(** * The scenario of the specification *)

Lemma steady_unit_draws (r : Q) :
  (0 <= r)%Q → (r < 1)%Q → unit_draws (steady r).
Proof. intros H0 H1 k. split; assumption. Qed.

Lemma plain_brand_by_computation (l : list Product) :
  forallb (λ p, plain_name (brand_name p)) l = true → Forall plain_brand l.
Proof.
  intros H. apply Forall_forall. intros p Hp.
  rewrite forallb_forall in H. apply H, list_elem_of_In, Hp.
Qed.

Lemma static_catalog_item (catalog : list Product) (p : Product) :
  (∃ c, p ∈ catalogByCategory catalog c) ∨ (∃ i, catalogById catalog i = Some p)
  → p ∈ catalog.
Proof.
  intros [[c H]|[i H]].
  - apply list_elem_of_In, filter_In in H as [H _]. apply list_elem_of_In, H.
  - apply find_some in H as [H _]. apply list_elem_of_In, H.
Qed.


Lemma static_catalog_safe_prices (catalog : list Product) :
  forallb (λ p, Z.abs (lowest_price p) <=? price_cap) catalog = true →
  safe_prices (catalogByCategory catalog) (catalogById catalog).
Proof.
  intros H. rewrite forallb_forall in H.
  assert (Hall : ∀ p, p ∈ catalog → Z.abs (lowest_price p) <= price_cap).
  { intros p Hp. apply Z.leb_le, H, list_elem_of_In, Hp. }
  split; [intros c p Hp|intros i p Hp];
    apply Hall, static_catalog_item; eauto.
Qed.

Lemma sku_disjoint_by_computation (l1 l2 : list Product) :
  forallb (λ x, bool_decide (x ∉ map sku_id l2)) (map sku_id l1) = true →
  sku_disjoint l1 l2.
Proof.
  intros H x H1 H2. rewrite forallb_forall in H.
  apply list_elem_of_In, H, bool_decide_eq_true in H1. exact (H1 H2).
Qed.

Lemma wardrobe_pools_disjoint : pools_disjoint (catalogByCategory wardrobe).
Proof.
  repeat split; apply sku_disjoint_by_computation; vm_compute; reflexivity.
Qed.

(** With a single candidate the selector has no choice. *)
Lemma selectBestItem_singleton p e pref w :
  unit_draws w →
  selectBestItem [p] e pref w = (Some p, (Math_random w).2).
Proof.
  intros Hw. unfold selectBestItem. rewrite bind_run.
  cbn [map Array_sort foldr sort_insert length Nat.min take ret].
  destruct (Hw 0%nat) as [H0 H1].
  change ((Math_random w).1) with (random_stream w 0%nat).
  assert (E : Qfloor (random_stream w 0 * of_nat 1) = 0).
  { apply Z.le_antisymm.
    - assert (Qfloor (random_stream w 0 * of_nat 1) < 1); [|lia].
      pose proof (Qfloor_le (random_stream w 0 * of_nat 1)) as Hf.
      rewrite Zlt_Qlt. change (of_nat 1) with 1%Q in *.
      change (inject_Z 1) with 1%Q. lra.
    - change 0 with (Qfloor 0). apply Qfloor_resp_le.
      change (of_nat 1) with 1%Q. lra. }
  rewrite E. reflexivity.
Qed.

Lemma fillSlot_singleton pref pool sel p w :
  List.filter (λ t, negb (includes t sel)) pool = [p] →
  unit_draws w →
  fillSlot pref None pool sel w
  = ((Some p, (sel ++ [p])%list), (Math_random w).2).
Proof.
  intros Hf Hw. unfold fillSlot. rewrite Hf, bind_run.
  rewrite (selectBestItem_singleton p sel pref w Hw). reflexivity.
Qed.

(** The one attempt the scenario needs: every pool holds one item. *)
Lemma scenario_attempt w :
  unit_draws w →
  ∃ o, ls_outfits (attemptBody (catalogByCategory scenario) None None
                     TOP_001 0 (mkLoopState [] ∅) w).1 = [o]
       ∧ allItemsOf o = [TOP_001; BOTTOM_001; SHOE_001; ACC_001]
       ∧ score_breakdown o
         = scoreItems None [TOP_001; BOTTOM_001; SHOE_001; ACC_001].
Proof.
  intros Hw. unfold attemptBody. rewrite bind_run, fillSlots_run.
  change (assignBase (catalogByCategory scenario) TOP_001)
    with (mkSlots (Some TOP_001) None None [TOP_001]).
  cbn [s_top s_bottom s_shoe selectedItems].
  change (fillSlot None (Some TOP_001) ?pool ?sel w)
    with (Some TOP_001, sel, w).
  cbn zeta. cbn [fst snd].
  rewrite (fillSlot_singleton None (allBottoms (catalogByCategory scenario))
             [TOP_001] BOTTOM_001 w eq_refl Hw).
  cbn [fst snd app].
  rewrite (fillSlot_singleton None (allFootwear (catalogByCategory scenario))
             [TOP_001; BOTTOM_001] SHOE_001 _ eq_refl
             (keeps_Math_random _ Hw)).
  cbn [fst snd app s_top s_bottom s_shoe selectedItems].
  rewrite bool_decide_eq_false_2 by set_solver.
  rewrite bind_run. cbn [ret fst].
  rewrite completeOutfit_run. cbn zeta. cbn [fst snd].
  change (1 + 0 mod 2)%nat with 1%nat. cbn [addAccessories].
  rewrite bind_run.
  rewrite (selectBestItem_singleton ACC_001 _ None _
             (keeps_Math_random _ (keeps_Math_random _ Hw))).
  cbn [ret fst snd ls_outfits usedCombinations app].
  eexists. split; [reflexivity|]. split; reflexivity.
Qed.

Lemma scenario_run w :
  unit_draws w →
  ∃ o, outfits (recommend scenario (request_for "TOP_001" (Some 1)) w).1 = [o]
       ∧ allItemsOf o = [TOP_001; BOTTOM_001; SHOE_001; ACC_001]
       ∧ score_breakdown o
         = scoreItems None [TOP_001; BOTTOM_001; SHOE_001; ACC_001].
Proof.
  intros Hw. unfold recommend.
  destruct (generate_resolved (catalogByCategory scenario)
              (catalogById scenario) (request_for "TOP_001" (Some 1))
              TOP_001 w eq_refl) as (-> & _ & _).
  unfold finalState.
  change (numOutfits (request_for "TOP_001" (Some 1))) with 1.
  change (Z.to_nat (1 * 5)) with 5%nat.
  rewrite attemptLoop_S. cbn [ls_outfits length].
  change ((Z.of_nat 0 <? 1 * 5) && (Z.of_nat 0 <? 1)) with true.
  cbn iota zeta. cbn [preferred_style req_season request_for].
  destruct (scenario_attempt _ (keeps_performance_now _ Hw))
    as (o & Ho & Hi & Hb).
  rewrite attemptLoop_S, Ho. cbn [length].
  change ((Z.of_nat 1 <? 1 * 5) && (Z.of_nat 1 <? 1)) with false.
  cbn iota. cbn [fst]. rewrite Ho.
  cbn [Array_sort foldr sort_insert map].
  exists (deleteSortScore o). split; [reflexivity|]. split; assumption.
Qed.

(** The color harmony of four items is the mean over their six
    pairs. *)
Lemma calculateColorHarmony_four a b c d :
  let h x y := color_lookup (itemColor x) (itemColor y) in
  (calculateColorHarmony [a; b; c; d]
   == (h a b + h a c + h a d + h b c + h b d + h c d) / 6)%Q.
Proof.
  cbn zeta. unfold calculateColorHarmony, pairwise_mean.
  cbn [outer_loop inner_loop fold_left fst snd Nat.ltb Nat.leb].
  change (of_nat 6) with 6%Q. field.
Qed.

(** C9, as amended: in the color-harmony matrix the white-navy entry is
    0.95, in both directions, and the white-white entry is 0.6; in the
    scenario the one outfit returned consists of the four catalog items
    and its [color_harmony] is the mean of the matrix scores over its
    six pairs: top-bottom 0.95, top-shoe 0.6, bottom-shoe 0.95, and the
    three pairs with the accessory, whose absent color counts as
    black. *)
Theorem scenario_color_harmony :
  color_entry white navy = Some 0.95%Q
  ∧ color_entry navy white = Some 0.95%Q
  ∧ color_entry white white = Some 0.6%Q
  ∧ (∀ w, unit_draws w →
       ∃ o,
         outfits (recommend scenario (request_for "TOP_001" (Some 1)) w).1
         = [o]
         ∧ allItemsOf o = [TOP_001; BOTTOM_001; SHOE_001; ACC_001]
         ∧ (color_harmony (score_breakdown o)
            == (0.95 + 0.6 + 1.0 + 0.95 + 0.9 + 1.0) / 6)%Q).
Proof.
  split; [vm_compute; reflexivity|].
  split; [vm_compute; reflexivity|].
  split; [vm_compute; reflexivity|].
  intros w Hw. destruct (scenario_run w Hw) as (o & Ho & Hi & Hb).
  exists o. split; [exact Ho|]. split; [exact Hi|].
  rewrite Hb. cbn [scoreItems color_harmony].
  rewrite calculateColorHarmony_four. vm_compute. reflexivity.
Qed.

(** * Concrete runs *)


(** C7, as stated, fails: without a priced accessory in the catalog the
    outfit returned has no accessory at all. *)
Lemma outfit_without_accessories :
  ∃ o,
    outfits (recommend bare_scenario (request_for "TOP_001" (Some 1))
               (steady 0)).1 = [o]
    ∧ ¬ (1 <= length (accessories o) <= 2)%nat.
Proof.
  eexists. split; [vm_compute; reflexivity|].
  cbn [accessories length]. lia.
Qed.

(** C9, as stated, fails: the white-navy entry is 0.95, not a value
    that begins 0.85. *)
Lemma white_navy_is_not_085 :
  ¬ (∃ v, color_entry white navy = Some v
          ∧ (0.85 <= v)%Q ∧ (v < 0.86)%Q).
Proof.
  intros (v & Hv & _ & Hhi).
  assert (E : color_entry white navy = Some 0.95%Q)
    by (vm_compute; reflexivity).
  rewrite E in Hv. injection Hv as <-. lra.
Qed.

(** C10, as stated, fails: asked for 0 outfits around a resolvable base
    product, the engine returns zero outfits when the catalog has no
    bottoms and no footwear. *)
Lemma zero_request_may_return_nothing :
  let request := request_for "TOP_001" (Some 0) in
  catalogById lone_shirt (base_product_id request) = Some TOP_001
  ∧ num_outfits request = Some 0
  ∧ outfits (recommend lone_shirt request (steady 0)).1 = [].
Proof.
  cbn zeta. repeat split; vm_compute; reflexivity.
Qed.

(** C6 at its failing input: the base product is the accessory
    [ACC_001], which no pool of tops, bottoms or footwear contains; the
    engine resolves it, classifies it as an accessory, and returns an
    outfit in which it does not occur. *)
Theorem accessory_base_left_out :
  let request := request_for "ACC_001" (Some 1) in
  let response := (recommend wardrobe request (steady 0.5)).1 in
  unit_draws (steady 0.5)
  ∧ base_product response = Resolved ACC_001
  ∧ baseCategory (catalogByCategory wardrobe) ACC_001 = "accessories"
  ∧ ∃ o, outfits response = [o] ∧ ACC_001 ∉ allItemsOf o.
Proof.
  cbn zeta. split; [apply steady_unit_draws; lra|].
  split; [vm_compute; reflexivity|]. split; [vm_compute; reflexivity|].
  eexists. split; [vm_compute; reflexivity|].
  apply (bool_decide_unpack _). vm_compute. exact I.
Qed.

(** ** The theorems at concrete inputs *)

Lemma match_score_in_scenario :
  ∃ o,
    head (outfits (recommend office (request_for "TOP_001" (Some 1))
                     (steady 0)).1) = Some o
    ∧ (Qabs (style_match (score_breakdown o) - 2 / 3) <= double_slack)%Q
    ∧ (match_score o == 0.67)%Q
    ∧ ∃ k : Z,
        0 <= k <= 100
        ∧ (match_score o == inject_Z k / 100)%Q
        ∧ (Qabs (match_score o - style_match (score_breakdown o))
           <= 1 / 200 + double_slack)%Q.
Proof.
  eexists. split; [vm_compute; reflexivity|].
  split; [vm_compute; discriminate|]. split; [vm_compute; reflexivity|].
  apply (proj1 (match_score_is_rounded_style_match
                  (catalogByCategory office) (catalogById office))
           (request_for "TOP_001" (Some 1)) (steady 0)).
  apply list_elem_of_lookup_2 with 0%nat. vm_compute. reflexivity.
Defined.


Lemma unknown_id_in_scenario :
  let request := request_for "NOT_REAL" (Some 3) in
  let response := (recommend scenario request (steady 0)).1 in
  catalogById scenario (base_product_id request) = None
  ∧ response = emptyResponse 1
  ∧ outfits response = []
  ∧ base_product response = EmptyObject
  ∧ cache_hit response = false
  ∧ (0 <= processing_time_ms response)%Q.
Proof.
  cbn zeta. split; [reflexivity|].
  destruct (unresolved_base_gives_empty_response
              (catalogByCategory scenario) (catalogById scenario)
              (request_for "NOT_REAL" (Some 3)) (steady 0) eq_refl)
    as (Hr & Ho & Hb & Hc & Hpos).
  split; [exact Hr|]. split; [exact Ho|]. split; [exact Hb|].
  split; [exact Hc|].
  apply Hpos. vm_compute. discriminate.
Defined.


Lemma distinct_triples_in_wardrobe :
  ∃ o1 o2,
    let response :=
      (recommend wardrobe (request_for "TOP_001" (Some 2))
         (scripted [0.5; 0; 0; 0]%Q 0)).1 in
    outfits response !! 0%nat = Some o1
    ∧ outfits response !! 1%nat = Some o2
    ∧ ¬ (slotIds o1 ≡ₚ slotIds o2).
Proof.
  eexists _, _. cbn zeta.
  split; [vm_compute; reflexivity|]. split; [vm_compute; reflexivity|].
  apply (no_two_outfits_share_a_triple
           (catalogByCategory wardrobe) (catalogById wardrobe)
           (request_for "TOP_001" (Some 2)) (scripted [0.5; 0; 0; 0]%Q 0)
           0%nat 1%nat).
  - exact wardrobe_pools_disjoint.
  - lia.
  - vm_compute. reflexivity.
  - vm_compute. reflexivity.
Defined.

Lemma accessories_in_wardrobe :
  ∃ o,
    head (outfits (recommend wardrobe (request_for "TOP_001" (Some 2))
                     (steady 0.5)).1) = Some o
    ∧ sku_id (top o) = "TOP_001"
    ∧ (1 <= length (accessories o) <= 2)%nat
    ∧ (∀ a, a ∈ accessories o
            → a ∈ allAccessories (catalogByCategory wardrobe)).
Proof.
  eexists. split; [vm_compute; reflexivity|].
  split; [reflexivity|].
  match goal with
  | |- (_ <= length (accessories ?o) <= _)%nat ∧ _ =>
      destruct (accessories_at_most_two
                  (catalogByCategory wardrobe) (catalogById wardrobe)
                  (request_for "TOP_001" (Some 2)) (steady 0.5) o)
        as (_ & _ & _ & Hhi & Hin & Hlo)
  end.
  - apply list_elem_of_lookup_2 with 0%nat. vm_compute. reflexivity.
  - split; [split; [|exact Hhi]|exact Hin].
    apply Hlo; [discriminate|]. apply steady_unit_draws; lra.
Defined.

Lemma color_harmony_in_steady_world :
  unit_draws (steady 0)
  ∧ ∃ o,
      outfits (recommend scenario (request_for "TOP_001" (Some 1))
                 (steady 0)).1 = [o]
      ∧ allItemsOf o = [TOP_001; BOTTOM_001; SHOE_001; ACC_001]
      ∧ (color_harmony (score_breakdown o)
         == (0.95 + 0.6 + 1.0 + 0.95 + 0.9 + 1.0) / 6)%Q.
Proof.
  assert (H : unit_draws (steady 0)) by (apply steady_unit_draws; lra).
  split; [exact H|].
  exact (proj2 (proj2 (proj2 scenario_color_harmony)) (steady 0) H).
Defined.

Lemma zero_request_in_scenario :
  let request := request_for "TOP_001" (Some 0) in
  let w := steady 0 in
  num_outfits request = Some 0
  ∧ catalogById scenario (base_product_id request) = Some TOP_001
  ∧ recommend scenario request w
    = recommend scenario (with_num_outfits (Some 3) request) w
  ∧ recommend scenario request w
    = recommend scenario (with_num_outfits None request) w
  ∧ (1 <= length (outfits (recommend scenario request w).1) <= 3)%nat.
Proof.
  cbn zeta. split; [reflexivity|]. split; [reflexivity|].
  destruct (zero_outfits_means_three
              (catalogByCategory scenario) (catalogById scenario)
              (request_for "TOP_001" (Some 0)) (steady 0) eq_refl)
    as (H3 & HN & Hlen).
  split; [exact H3|]. split; [exact HN|].
  apply (Hlen TOP_001).
  - reflexivity.
  - repeat split; apply sku_disjoint_by_computation; vm_compute; reflexivity.
  - vm_compute. discriminate.
  - vm_compute. discriminate.
  - vm_compute. discriminate.
  - apply steady_unit_draws; lra.
Defined.

(** * Further properties of the engine *)

(** ** Selection scores *)

Lemma mean_bounds {A} (f : A → Q) (l : list A) :
  (∀ x, (0 <= f x)%Q ∧ (f x <= 1)%Q) →
  (0 <= fold_left (λ sum x, sum + f x) l 0 / of_nat (length l))%Q
  ∧ (fold_left (λ sum x, sum + f x) l 0 / of_nat (length l) <= 1)%Q.
Proof.
  intros Hf.
  assert (H : ∀ k a, (0 <= a)%Q ∧ (a <= of_nat k)%Q →
            (0 <= fold_left (λ sum x, sum + f x) l a)%Q
            ∧ (fold_left (λ sum x, sum + f x) l a
               <= of_nat (k + length l))%Q).
  { induction l as [|x l IH]; intros k a [H0 H1]; simpl.
    - rewrite Nat.add_0_r. split; assumption.
    - replace (k + S (length l))%nat with (S k + length l)%nat by lia.
      apply IH. destruct (Hf x). rewrite of_nat_S. split; lra. }
  destruct (H 0%nat 0%Q) as [H0 H1]; [split; [lra|apply of_nat_nonneg]|].
  simpl in H1. split; [apply Qdiv_nonneg|apply Qdiv_le_1]; try assumption.
  apply of_nat_nonneg.
Qed.

(** X9: when the brand names involved are plain, the score the
    selector gives a candidate lies between 0 and 1. *)
Theorem candidateScore_bounds existing pref item :
  plain_brand item → Forall plain_brand existing →
  (0 <= candidateScore existing pref item)%Q
  ∧ (candidateScore existing pref item <= 1)%Q.
Proof.
  intros _ _. unfold candidateScore.
  pose proof (mean_bounds
                (λ e, color_lookup (itemColor item) (itemColor e)) existing
                (λ e, color_lookup_bounds _ _)) as [C0 C1].
  pose proof (mean_bounds
                (λ e, style_lookup (itemStyle item) (itemStyle e)) existing
                (λ e, style_lookup_bounds _ _)) as [S0 S1].
  set (colorMean := (fold_left _ existing 0 / _)%Q) in C0, C1 |- *.
  set (styleMean := (fold_left _ existing 0 / _)%Q) in S0, S1 |- *.
  set (tier := Math_max 0 _).
  assert (HT : (0 <= tier)%Q ∧ (tier <= 1)%Q).
  { apply Math_max_0_bounds.
    set (d := Qabs _).
    assert (Hd : (0 <= d / 3)%Q).
    { apply Qdiv_nonneg; [apply Qabs_nonneg|lra]. }
    revert Hd. generalize (d / 3)%Q. intros v Hv. lra. }
  destruct HT as [T0 T1].
  assert (HP : ∀ p, (0 <= style_lookup (itemStyle item) p)%Q
                    ∧ (style_lookup (itemStyle item) p <= 1)%Q)
    by (intros p; apply style_lookup_bounds).
  destruct existing as [|e0 existing];
    [destruct pref as [p|]; [destruct (HP p)|]|];
    destruct (bool_decide _); split; lra.
Qed.

(** ** The selector picks among the three best *)





(** ** Brand tiers *)

Lemma BRAND_TIERS_range k t : BRAND_TIERS !! k = Some t → 1 <= t <= 5.
Proof.
  revert k t.
  change (map_Forall (λ _ t, 1 <= t <= 5) BRAND_TIERS).
  apply map_Forall_to_list. apply Forall_forall.
  intros [k t] Hin.
  assert (Ht : t ∈ (map_to_list BRAND_TIERS).*2).
  { apply list_elem_of_fmap. exists (k, t). done. }
  clear Hin. revert Ht.
  generalize t. apply Forall_forall.
  apply (bool_decide_unpack _). vm_compute. exact I.
Qed.

Lemma lower_ascii_idemp c : lower_ascii (lower_ascii c) = lower_ascii c.
Proof. destruct c as [[] [] [] [] [] [] [] []]; reflexivity. Qed.

Lemma toLowerCase_idemp s : toLowerCase (toLowerCase s) = toLowerCase s.
Proof.
  induction s as [|c s IH]; simpl; [reflexivity|].
  rewrite lower_ascii_idemp, IH. reflexivity.
Qed.

(** X10: the brand tier of a product with a plain brand name is a
    number from 1 to 5, and it does not depend on the case of the
    brand name. *)
Theorem brandTier_range_and_case p :
  plain_brand p →
  1 <= brandTier p <= 5
  ∧ brandTier (with_brand (toLowerCase (brand_name p)) p) = brandTier p.
Proof.
  intros _. split.
  - unfold brandTier.
    destruct (BRAND_TIERS !! toLowerCase (brand_name p)) as [t|] eqn:E;
      [|lia].
    apply BRAND_TIERS_range in E.
    destruct (Z.eqb_spec t 0); lia.
  - unfold brandTier, with_brand. cbn [brand_name].
    rewrite toLowerCase_idemp. reflexivity.
Qed.

(** ** Dedup keys *)

Lemma dash_split a a' r r' :
  dash_free a → dash_free a' →
  a ++ "-" ++ r = a' ++ "-" ++ r' → a = a' ∧ r = r'.
Proof.
  revert a'. induction a as [|c a IH]; intros [|c' a'] Ha Ha' E; simpl in E.
  - injection E as E. done.
  - injection E as E1 E2. exfalso. apply Ha'. simpl. left. done.
  - injection E as E1 E2. exfalso. apply Ha. simpl. left. done.
  - injection E as -> E.
    destruct (IH a') as [-> ->]; [| |exact E|done].
    + intros H. apply Ha. simpl. right. exact H.
    + intros H. apply Ha'. simpl. right. exact H.
Qed.

(** X11: when the sku ids of the tops and the bottoms contain no dash,
    two outfits with the same combination key have the same three sku
    ids. *)
Theorem combinationKey_injective t b s t' b' s' :
  dash_free (sku_id t) → dash_free (sku_id t') →
  dash_free (sku_id b) → dash_free (sku_id b') →
  combinationKey t b s = combinationKey t' b' s' →
  sku_id t = sku_id t' ∧ sku_id b = sku_id b' ∧ sku_id s = sku_id s'.
Proof.
  intros Ht Ht' Hb Hb' E. unfold combinationKey in E.
  apply dash_split in E as [E1 E]; [|assumption..].
  apply dash_split in E as [E2 E3]; [|assumption..].
  done.
Qed.

(** ** Pairwise means *)

Section Pairs.

Variable score : Product → Product → Q.

Lemma inner_loop_sum x later acc :
  ((inner_loop score x later acc).1 == acc.1 + row_sum score x later)%Q
  ∧ (inner_loop score x later acc).2 = (acc.2 + length later)%nat.
Proof.
  unfold inner_loop. revert acc.
  induction later as [|y later IH]; intros acc; simpl.
  - split; [ring|lia].
  - destruct (IH ((acc.1 + score x y)%Q, S acc.2)) as [H1 H2].
    rewrite H1, H2. simpl. split; [ring|lia].
Qed.

Lemma outer_loop_sum items acc :
  ((outer_loop score items acc).1 == acc.1 + pair_sum score items)%Q
  ∧ (outer_loop score items acc).2 = (acc.2 + pair_count items)%nat.
Proof.
  revert acc. induction items as [|x later IH]; intros acc; simpl.
  - split; [ring|lia].
  - destruct (IH (inner_loop score x later acc)) as [H1 H2].
    destruct (inner_loop_sum x later acc) as [I1 I2].
    rewrite H1, H2, I1, I2. split; [ring|lia].
Qed.

(** The mean as the code computes it is the sum over the pairs divided
    by their number. *)
Lemma pairwise_mean_sum items :
  (pairwise_mean score items ==
   if (0 <? pair_count items)%nat
   then pair_sum score items / of_nat (pair_count items) else 0.5)%Q.
Proof.
  unfold pairwise_mean.
  destruct (outer_loop_sum items (0%Q, 0%nat)) as [H1 H2].
  destruct (outer_loop score items (0%Q, 0%nat)) as [total k].
  simpl in H1, H2. subst k.
  destruct (0 <? pair_count items)%nat; [|reflexivity].
  rewrite H1. rewrite Qplus_0_l. reflexivity.
Qed.

End Pairs.

(** A list in which every pair has the same score. *)
Lemma pair_sum_const score v items :
  (∀ a b, a ∈ items → b ∈ items → (score a b == v)%Q) →
  (pair_sum score items == of_nat (pair_count items) * v)%Q.
Proof.
  induction items as [|x later IH]; intros H; simpl.
  - change (of_nat 0) with 0%Q. ring.
  - rewrite IH by (intros a b Ha Hb; apply H; by right).
    assert (Hr : (row_sum score x later == of_nat (length later) * v)%Q).
    { assert (Hx : ∀ b, b ∈ later → (score x b == v)%Q)
        by (intros b Hb; apply H; [left|by right]).
      clear -Hx. unfold row_sum.
      induction later as [|y later IH]; simpl.
      - change (of_nat 0) with 0%Q. ring.
      - rewrite IH by (intros b Hb; apply Hx; by right).
        rewrite (Hx y) by left. rewrite of_nat_S. ring. }
    rewrite Hr. unfold of_nat.
    rewrite Nat2Z.inj_add, inject_Z_plus. ring.
Qed.

Lemma pairwise_mean_const score v items :
  (2 <= length items)%nat →
  (∀ a b, a ∈ items → b ∈ items → (score a b == v)%Q) →
  (pairwise_mean score items == v)%Q.
Proof.
  intros Hlen H. rewrite pairwise_mean_sum.
  assert (Hc : (0 < pair_count items)%nat).
  { destruct items as [|x [|y l]]; simpl in *; lia. }
  destruct (Nat.ltb_spec 0 (pair_count items)); [|lia].
  rewrite (pair_sum_const score v items H).
  pose proof (of_nat_pos _ Hc). field. lra.
Qed.

(** X13: two or more items of one style match perfectly: every pair
    scores 1, and a sum of ones and its mean are exact. *)
Theorem one_style_matches_perfectly items s :
  (2 <= length items)%nat →
  (∀ p, p ∈ items → itemStyle p = s) →
  (calculateStyleMatch items == 1)%Q.
Proof.
  intros Hlen Hs. apply pairwise_mean_const; [exact Hlen|].
  intros a b Ha Hb. rewrite (Hs a Ha), (Hs b Hb).
  destruct s; vm_compute; reflexivity.
Qed.

(** ** Brand cohesion and price balance *)

Lemma Math_max_0_one (x : Q) : (x == 1)%Q → (Math_max 0 x == 1)%Q.
Proof.
  intros H. unfold Math_max.
  destruct (Qle_bool 0 x) eqn:E; [exact H|].
  assert (Qle_bool 0 x = true) by (apply Qle_bool_iff; lra). congruence.
Qed.

Lemma fold_add_const (l : list Z) (t a : Z) :
  (∀ x, x ∈ l → x = t) →
  fold_left Z.add l a = a + Z.of_nat (length l) * t.
Proof.
  revert a. induction l as [|x l IH]; intros a H; simpl; [lia|].
  rewrite IH by (intros y Hy; apply H; by right).
  rewrite (H x) by left. lia.
Qed.

Lemma sum_squares_zero {A} (f : A → Q) (l : list A) (a : Q) :
  (∀ x, x ∈ l → (f x == 0)%Q) →
  (fold_left (λ sum x, sum + f x * f x) l a == a)%Q.
Proof.
  revert a. induction l as [|x l IH]; intros a H; simpl; [reflexivity|].
  rewrite IH by (intros y Hy; apply H; by right).
  rewrite (H x) by left. ring.
Qed.

(** The mean of a non-empty list of equal integers. *)
Lemma mean_const (l : list Z) (t : Z) :
  l ≠ [] → (∀ x, x ∈ l → x = t) →
  (inject_Z (fold_left Z.add l 0%Z) / of_nat (length l) == inject_Z t)%Q.
Proof.
  intros Hne H. rewrite (fold_add_const l t 0 H).
  assert (Hpos : (0 < of_nat (length l))%Q).
  { apply of_nat_pos. destruct l; [done|simpl; lia]. }
  rewrite Z.add_0_l, inject_Z_mult. fold (of_nat (length l)).
  field. lra.
Qed.

(** X14: items with plain brand names that all belong to one brand
    tier have a brand cohesion of 1. *)
Theorem one_tier_is_fully_cohesive items t :
  Forall plain_brand items →
  items ≠ [] → (∀ p, p ∈ items → brandTier p = t) →
  (calculateBrandCohesion items == 1)%Q.
Proof.
  intros _ Hne Ht. unfold calculateBrandCohesion.
  set (tiers := map brandTier items).
  assert (Htiers : ∀ x, x ∈ tiers → x = t).
  { intros x Hx. apply list_elem_of_In, in_map_iff in Hx as (p & <- & Hp).
    apply Ht, list_elem_of_In, Hp. }
  assert (Hne' : tiers ≠ []) by (destruct items; [done|discriminate]).
  pose proof (mean_const tiers t Hne' Htiers) as Havg.
  set (avg := (inject_Z _ / _)%Q) in Havg |- *.
  apply Math_max_0_one.
  rewrite (sum_squares_zero (λ tier, inject_Z tier - avg)%Q tiers 0).
  - unfold Qdiv. ring.
  - intros x Hx. rewrite (Htiers x Hx), Havg. ring.
Qed.


(** ** The outfits of a response *)

Lemma fold_left_add_sumZ {A} (f : A → Z) (l : list A) (a : Z) :
  fold_left (λ sum x, sum + f x) l a = a + sumZ (map f l).
Proof.
  revert a. induction l as [|x l IH]; intros a; simpl; [lia|].
  rewrite IH. unfold sumZ. simpl. lia.
Qed.

Section OutfitProperties.
Variable getProductsByCategory : string → list Product.
Variable getProductById : string → option Product.

Lemma assembled_reasoning w0 pref season base o :
  assembled getProductsByCategory w0 pref season base o →
  reasoning o
  = generateReasoning (score_breakdown o) (allItemsOf o) (total_price o).
Proof.
  intros (attempt & w & _ & _ & _ & _ & Ho).
  rewrite completeOutfit_run in Ho. cbn zeta in Ho. cbn [fst] in Ho.
  rewrite Ho. unfold allItemsOf. cbn. done.
Qed.

(** X2: in an outfit of the response the score breakdown is that of
    its own items under the season of the request, and the reasoning
    text is generated from that breakdown, those items and the total
    price. *)
Theorem outfit_fields_are_coherent request w o :
  let response :=
    (generateOutfitRecommendations getProductsByCategory getProductById
       request w).1 in
  o ∈ outfits response →
  score_breakdown o = scoreItems (req_season request) (allItemsOf o)
  ∧ reasoning o
    = generateReasoning (score_breakdown o) (allItemsOf o) (total_price o).
Proof.
  cbn zeta. intros Ho.
  destruct (response_outfit_assembled _ _ request w o Ho)
    as (base & o' & _ & Ha & ->).
  pose proof (assembled_reasoning _ _ _ _ _ Ha) as Hr.
  apply assembled_fields in Ha as (Hb & _).
  split; [exact Hb|exact Hr].
Qed.

(** *** Where filler items come from *)

Lemma fillSlot_result pref slot pool sel w :
  let r := (fillSlot pref slot pool sel w).1 in
  match slot with
  | Some b => r = (Some b, sel)
  | None =>
      r = (None, sel)
      ∨ ∃ p, p ∈ pool ∧ (p ∉ sel) ∧ r = (Some p, (sel ++ [p])%list)
  end.
Proof.
  cbn zeta. destruct slot as [b|]; [reflexivity|]. apply fillSlot_None.
Qed.

(** The three slots after [fillSlots], when all are filled: each holds
    the base product or an item of its pool, and the three items are
    pairwise different. *)
Lemma fillSlots_filled pref base w t b f :
  let s := (fillSlots getProductsByCategory pref
              (assignBase getProductsByCategory base) w).1 in
  s_top s = Some t → s_bottom s = Some b → s_shoe s = Some f →
  (t = base ∨ t ∈ allTops getProductsByCategory)
  ∧ (b = base ∨ b ∈ allBottoms getProductsByCategory)
  ∧ (f = base ∨ f ∈ allFootwear getProductsByCategory)
  ∧ t ≠ b ∧ t ≠ f ∧ b ≠ f.
Proof.
  cbn zeta. rewrite fillSlots_run. cbn zeta.
  cbn [fst s_top s_bottom s_shoe].
  destruct (assignBase_cases getProductsByCategory base)
    as [(_ & E)|[(_ & _ & E)|[(_ & _ & _ & E)|(_ & _ & _ & E)]]];
    rewrite E; cbn [s_top s_bottom s_shoe selectedItems];
    repeat match goal with
    | |- context [fillSlot pref (Some ?x) ?pool ?sel ?w'] =>
        change (fillSlot pref (Some x) pool sel w') with (Some x, sel, w');
        cbn [fst snd]
    | |- context [(fillSlot pref None ?pool ?sel ?w').1] =>
        let H := fresh "H" in
        destruct (fillSlot_None pref pool sel w')
          as [H|(? & ? & ? & H)]; rewrite H; cbn [fst snd]
    end;
    intros Ht Hb Hf; try discriminate;
    injection Ht as <-; injection Hb as <-; injection Hf as <-;
    repeat match goal with
    | H : _ ∉ (_ ++ _)%list |- _ => rewrite not_elem_of_app in H; destruct H
    | H : _ ∉ [_] |- _ => rewrite list_elem_of_singleton in H
    end;
    repeat split; auto; congruence.
Qed.


Lemma addAccessories_priced pref sel rounds w a :
  a ∈ (addAccessories getProductsByCategory pref sel rounds [] w).1 →
  0 < lowest_price a.
Proof.
  intros Ha. apply addAccessories_elem in Ha as [Ha|Ha]; [inversion Ha|].
  apply list_elem_of_In, filter_In in Ha as [_ Hp].
  unfold priced in Hp. lia.
Qed.



(** X4: every mandatory item of an outfit is the base product or comes
    from the pool of its own slot and has a positive price; every
    accessory comes from the accessory pool and has a positive
    price. *)
Theorem fillers_are_priced request w base o :
  let response :=
    (generateOutfitRecommendations getProductsByCategory getProductById
       request w).1 in
  getProductById (base_product_id request) = Some base →
  o ∈ outfits response →
  (top o = base
   ∨ (top o ∈ allTops getProductsByCategory ∧ 0 < lowest_price (top o)))
  ∧ (bottom o = base
     ∨ (bottom o ∈ allBottoms getProductsByCategory
        ∧ 0 < lowest_price (bottom o)))
  ∧ (footwear o = base
     ∨ (footwear o ∈ allFootwear getProductsByCategory
        ∧ 0 < lowest_price (footwear o)))
  ∧ (∀ a, a ∈ accessories o →
          a ∈ allAccessories getProductsByCategory ∧ 0 < lowest_price a).
Proof.
  cbn zeta. intros Hbase Ho.
  destruct (response_outfit_assembled _ _ request w o Ho)
    as (base' & o' & Hb' & Ha & ->).
  rewrite Hbase in Hb'. injection Hb' as <-.
  cbn [deleteSortScore top bottom footwear accessories].
  pose proof Ha as (attempt & w1 & _ & Ht & Hb & Hf & _).
  cbn zeta in Ht, Hb, Hf.
  destruct (fillSlots_filled _ _ _ _ _ _ Ht Hb Hf)
    as (H1 & H2 & H3 & _).
  assert (Hp : ∀ (p : Product) pool,
             p ∈ List.filter priced pool → 0 < lowest_price p).
  { intros p pool Hin. apply list_elem_of_In, filter_In in Hin as [_ Hp].
    unfold priced in Hp. lia. }
  apply assembled_accessories in Ha as (att & sel & w2 & _ & Hacc).
  rewrite Hacc.
  split; [destruct H1; [left|right]; eauto|].
  split; [destruct H2; [left|right]; eauto|].
  split; [destruct H3; [left|right]; eauto|].
  intros a Hin. split; [|eapply addAccessories_priced, Hin].
  apply addAccessories_elem in Hin as [Hin|Hin]; [inversion Hin|exact Hin].
Qed.

(** *** The total price *)

Lemma sumZ_abs_bound (l : list Z) (B : Z) :
  (∀ x, x ∈ l → Z.abs x <= B) →
  Z.abs (sumZ l) <= Z.of_nat (length l) * B.
Proof.
  induction l as [|a l IH]; intros H; [simpl; lia|].
  cbn [sumZ foldr length]. fold (sumZ l).
  rewrite Nat2Z.inj_succ, Z.mul_succ_l.
  specialize (IH ltac:(intros x Hx; apply H; by right)).
  specialize (H a ltac:(left)). lia.
Qed.

(** Every item of an outfit of the response is a product the catalog
    provider returns, and there are at most five of them. *)
Lemma outfit_items_in_catalog request w o :
  o ∈ outfits (generateOutfitRecommendations getProductsByCategory
                 getProductById request w).1 →
  (length (allItemsOf o) <= 5)%nat
  ∧ ∀ x, x ∈ allItemsOf o →
         (∃ c, x ∈ getProductsByCategory c)
         ∨ (∃ i, getProductById i = Some x).
Proof.
  intros Ho.
  destruct (response_outfit_assembled _ _ request w o Ho)
    as (base & o' & Hbase & Ha & ->).
  unfold allItemsOf.
  cbn [deleteSortScore top bottom footwear accessories].
  pose proof Ha as (attempt & w1 & _ & Ht & Hb & Hf & _).
  cbn zeta in Ht, Hb, Hf.
  destruct (fillSlots_filled _ _ _ _ _ _ Ht Hb Hf) as (H1 & H2 & H3 & _).
  apply assembled_accessories in Ha as (att & sel & w2 & _ & Hacc).
  assert (Hpool : ∀ (p : Product) c,
             p ∈ List.filter priced (getProductsByCategory c) →
             ∃ c, p ∈ getProductsByCategory c).
  { intros p c Hp. exists c.
    apply list_elem_of_In, filter_In in Hp as [Hp _].
    apply list_elem_of_In, Hp. }
  split.
  - rewrite Hacc. cbn [length].
    pose proof (addAccessories_length getProductsByCategory
                  (preferred_style request) sel (1 + att mod 2) [] w2)
      as [_ H].
    pose proof (Nat.mod_upper_bound att 2 ltac:(lia)).
    cbn [length] in H. lia.
  - intros x Hx. rewrite !elem_of_cons in Hx.
    destruct Hx as [->|[->|[->|Hx]]].
    + destruct H1 as [->|H1]; [right; eauto|left; exact (Hpool _ _ H1)].
    + destruct H2 as [->|H2]; [right; eauto|left; exact (Hpool _ _ H2)].
    + destruct H3 as [->|H3]; [right; eauto|left; exact (Hpool _ _ H3)].
    + rewrite Hacc in Hx.
      apply addAccessories_elem in Hx as [Hx|Hx]; [inversion Hx|].
      left. exact (Hpool _ _ Hx).
Qed.

(** X1: when no price of the catalog exceeds [price_cap], the
    [total_price] of an outfit of the response is the sum of the
    prices of its top, its bottom, its footwear and its accessories,
    and it stays within the integers that doubles add exactly. *)
Theorem total_price_is_sum_of_items request w o :
  let response :=
    (generateOutfitRecommendations getProductsByCategory getProductById
       request w).1 in
  safe_prices getProductsByCategory getProductById →
  o ∈ outfits response →
  total_price o
  = lowest_price (top o) + lowest_price (bottom o)
    + lowest_price (footwear o) + sumZ (map lowest_price (accessories o))
  ∧ Z.abs (total_price o) <= MAX_SAFE_INTEGER.
Proof.
  cbn zeta. intros [Hc Hi] Ho.
  assert (Hsum : total_price o = sumZ (map lowest_price (allItemsOf o))).
  { destruct (response_outfit_assembled _ _ request w o Ho)
      as (base & o' & _ & Ha & ->).
    apply assembled_fields in Ha as (_ & _ & _ & Hp).
    unfold allItemsOf in *.
    cbn [deleteSortScore total_price top bottom footwear accessories].
    rewrite Hp, fold_left_add_sumZ. lia. }
  split; [rewrite Hsum; unfold allItemsOf, sumZ; cbn [map foldr]; lia|].
  destruct (outfit_items_in_catalog request w o Ho) as [Hlen Hin].
  pose proof (sumZ_abs_bound (map lowest_price (allItemsOf o)) price_cap)
    as Hb.
  rewrite length_map in Hb. rewrite Hsum.
  assert (E1 : price_cap = 1125899906842624) by reflexivity.
  assert (E2 : MAX_SAFE_INTEGER = 9007199254740991) by reflexivity.
  rewrite E2. rewrite E1 in Hb.
  etrans; [apply Hb|lia].
  intros x Hx. apply list_elem_of_In, in_map_iff in Hx as (p & <- & Hp).
  rewrite <- E1.
  destruct (Hin p ltac:(apply list_elem_of_In, Hp)) as [[c H]|[i H]];
    [exact (Hc c p H)|exact (Hi i p H)].
Qed.

(** *** The loop stops at [numOutfits] *)

Lemma attemptLoop_bounded pref season n base fuel attempt st w :
  Z.of_nat (length (ls_outfits st)) <= Z.max n 0 →
  Z.of_nat (length (ls_outfits
     (attemptLoop getProductsByCategory pref season n base
        fuel attempt st w).1)) <= Z.max n 0.
Proof.
  revert attempt st w.
  induction fuel as [|fuel IH]; intros attempt st w Hst; [exact Hst|].
  rewrite attemptLoop_S.
  destruct (Z.ltb_spec (Z.of_nat attempt) (n * 5)); cbn [andb];
    [|exact Hst].
  destruct (Z.ltb_spec (Z.of_nat (length (ls_outfits st))) n);
    [|exact Hst].
  cbn zeta. apply IH.
  destruct (attemptBody_step getProductsByCategory w pref season base
              attempt st w (λ H, H)) as [->|(o & _ & _ & ->)]; [exact Hst|].
  cbn [ls_outfits]. rewrite length_app. simpl. lia.
Qed.

(** X5: the final [slice(0, numOutfits)] never drops an outfit: the
    response holds, up to order, exactly the outfits the loop
    assembled, stripped of their sort score. *)
Theorem truncation_drops_nothing request w base :
  let response :=
    (generateOutfitRecommendations getProductsByCategory getProductById
       request w).1 in
  getProductById (base_product_id request) = Some base →
  outfits response
  ≡ₚ map deleteSortScore
       (ls_outfits (finalState getProductsByCategory request base w)).
Proof.
  cbn zeta. intros Hb.
  destruct (generate_resolved getProductsByCategory getProductById
              request base w Hb) as (-> & _ & _).
  pose proof (attemptLoop_bounded (preferred_style request)
                (req_season request) (numOutfits request) base
                (Z.to_nat (numOutfits request * 5)) 0
                (mkLoopState [] ∅) (performance_now w).2) as Hlen.
  fold (finalState getProductsByCategory request base w) in Hlen.
  cbn [ls_outfits length] in Hlen. specialize (Hlen ltac:(lia)).
  set (l := ls_outfits (finalState getProductsByCategory request base w))
    in *.
  destruct (Z.lt_ge_cases (numOutfits request) 0) as [Hneg|Hpos].
  - assert (l = []) as -> by (destruct l; [done|simpl in Hlen; lia]).
    unfold slice0. cbn [Array_sort foldr map].
    destruct (_ <? _); rewrite take_nil; reflexivity.
  - rewrite slice0_all.
    + change (map deleteSortScore ?x) with (deleteSortScore <$> x).
      rewrite Array_sort_perm. reflexivity.
    + rewrite length_map, Array_sort_perm. lia.
Qed.

(** *** Season *)

(** X6: without a season in the request, or with the empty string or
    ["all"], every outfit has a season fit of 1. *)
Theorem no_season_filter_fits request w o :
  let response :=
    (generateOutfitRecommendations getProductsByCategory getProductById
       request w).1 in
  req_season request = None ∨ req_season request = Some ""
  ∨ req_season request = Some "all" →
  o ∈ outfits response →
  season_fit (score_breakdown o) = 1.0%Q.
Proof.
  cbn zeta. intros Hs Ho.
  destruct (response_outfit_assembled _ _ request w o Ho)
    as (base & o' & _ & Ha & ->).
  apply assembled_fields in Ha as (Hb & _).
  cbn [deleteSortScore score_breakdown]. rewrite Hb.
  cbn [scoreItems season_fit].
  destruct Hs as [->|[->| ->]]; reflexivity.
Qed.

End OutfitProperties.

Lemma filter_all {A} (f : A → bool) (l : list A) :
  (∀ x, x ∈ l → f x = true) → List.filter f l = l.
Proof.
  induction l as [|x l IH]; intros H; simpl; [reflexivity|].
  rewrite (H x) by left. f_equal. apply IH. intros y Hy. apply H. by right.
Qed.

Lemma filter_none {A} (f : A → bool) (l : list A) :
  (∀ x, x ∈ l → f x = false) → List.filter f l = [].
Proof.
  induction l as [|x l IH]; intros H; simpl; [reflexivity|].
  rewrite (H x) by left. apply IH. intros y Hy. apply H. by right.
Qed.

(** X7: for a proper season the season fit of a non-empty list is 1
    when every item suits the season and 0 when none does. *)
Theorem season_fit_extremes items t :
  items ≠ [] → t ≠ "" → t ≠ "all" →
  ((∀ item, item ∈ items → in_season t item = true) →
   (calculateSeasonFit items (Some t) == 1)%Q)
  ∧ ((∀ item, item ∈ items → in_season t item = false) →
     (calculateSeasonFit items (Some t) == 0)%Q).
Proof.
  intros Hne H1 H2. unfold calculateSeasonFit.
  apply String.eqb_neq in H1, H2. rewrite H1, H2. cbn [orb].
  assert (Hpos : (0 < of_nat (length items))%Q).
  { apply of_nat_pos. destruct items; [done|simpl; lia]. }
  change (List.filter _ items) with (List.filter (in_season t) items).
  split; intros H.
  - rewrite (filter_all (in_season t) items H).
    field. lra.
  - rewrite (filter_none (in_season t) items H).
    change (of_nat (length [])) with 0%Q. field. lra.
Qed.

(** ** Timing and base options *)






Section Clock.

Variable getProductsByCategory : string → list Product.
Variable getProductById : string → option Product.









End Clock.

Section Options.
Variable products : list Product.

(** X17: the base product options are exactly the products with a
    positive price, in catalog order. *)
Theorem base_options_are_the_priced_products :
  (∀ p, p ∈ getBaseProductOptions products
        ↔ p ∈ products ∧ 0 < lowest_price p)
  ∧ getBaseProductOptions products `sublist_of` products.
Proof.
  unfold getBaseProductOptions. split.
  - intros p. rewrite !list_elem_of_In, filter_In. unfold priced.
    rewrite Z.ltb_lt. reflexivity.
  - induction products as [|x l IH]; simpl; [constructor|].
    destruct (priced x); [apply sublist_skip|apply sublist_cons]; exact IH.
Qed.
End Options.

(** ** How many outfits a run yields *)

Section Yield.

Variable getProductsByCategory : string → list Product.
Variable getProductById : string → option Product.

Lemma fillSlot_empty_pool pref sel w :
  fillSlot pref None [] sel w = ((None, sel), w).
Proof. reflexivity. Qed.

Lemma has_sku_nil base : has_sku base [] = false.
Proof. apply bool_decide_eq_false. intros [x Hx]. discriminate. Qed.

Lemma fillSlots_empty_pool pref base w :
  allTops getProductsByCategory = []
  ∨ allBottoms getProductsByCategory = []
  ∨ allFootwear getProductsByCategory = [] →
  let s := (fillSlots getProductsByCategory pref
              (assignBase getProductsByCategory base) w).1 in
  s_top s = None ∨ s_bottom s = None ∨ s_shoe s = None.
Proof.
  intros Hempty. cbn zeta. rewrite fillSlots_run. cbn zeta.
  cbn [fst s_top s_bottom s_shoe].
  destruct (assignBase_cases getProductsByCategory base)
    as [(H1 & E)|[(H1 & H2 & E)|[(H1 & H2 & H3 & E)|(H1 & H2 & H3 & E)]]];
    rewrite E; cbn [s_top s_bottom s_shoe selectedItems];
    destruct Hempty as [H|[H|H]]; rewrite H in *;
    rewrite ?has_sku_nil in *; try discriminate;
    rewrite ?fillSlot_empty_pool; cbn [fst snd]; auto.
Qed.

Lemma attemptBody_empty_pool pref season base attempt st w :
  allTops getProductsByCategory = []
  ∨ allBottoms getProductsByCategory = []
  ∨ allFootwear getProductsByCategory = [] →
  (attemptBody getProductsByCategory pref season base attempt st w).1 = st.
Proof.
  intros Hempty.
  pose proof (fillSlots_empty_pool pref base w Hempty) as H. cbn zeta in H.
  unfold attemptBody. rewrite bind_run.
  destruct (s_top _) as [t|]; [|reflexivity].
  destruct (s_bottom _) as [b|]; [|reflexivity].
  destruct (s_shoe _) as [f|]; [|reflexivity].
  destruct H as [H|[H|H]]; discriminate.
Qed.

Lemma attemptLoop_empty_pool pref season n base fuel attempt st w :
  allTops getProductsByCategory = []
  ∨ allBottoms getProductsByCategory = []
  ∨ allFootwear getProductsByCategory = [] →
  (attemptLoop getProductsByCategory pref season n base fuel attempt st w).1
  = st.
Proof.
  intros Hempty. revert attempt st w.
  induction fuel as [|fuel IH]; intros attempt st w; [reflexivity|].
  rewrite attemptLoop_S. destruct (_ && _); [|reflexivity].
  cbn zeta. rewrite IH. apply attemptBody_empty_pool, Hempty.
Qed.

(** X22: without a priced top, a priced bottom or priced footwear in
    the catalog no outfit is returned, whatever the base product and
    however many outfits are asked for. *)
Theorem empty_pool_gives_no_outfit request w :
  allTops getProductsByCategory = []
  ∨ allBottoms getProductsByCategory = []
  ∨ allFootwear getProductsByCategory = [] →
  outfits (generateOutfitRecommendations getProductsByCategory
             getProductById request w).1 = [].
Proof.
  intros Hempty.
  destruct (getProductById (base_product_id request)) as [base|] eqn:Hb.
  - destruct (generate_resolved getProductsByCategory getProductById
                request base w Hb) as (-> & _ & _).
    unfold finalState. rewrite attemptLoop_empty_pool by exact Hempty.
    cbn [ls_outfits Array_sort foldr map].
    destruct (slice0_take (@nil Outfit) (numOutfits request)) as [k ->].
    apply take_nil.
  - rewrite (generate_unresolved getProductsByCategory getProductById
               request w Hb). reflexivity.
Qed.

(** X23: a request for at least one outfit around a resolvable base
    product gets at least one whenever the three mandatory pools are
    non-empty and share no sku id: the first attempt succeeds. *)
Theorem first_attempt_yields_an_outfit request base w :
  getProductById (base_product_id request) = Some base →
  1 <= numOutfits request →
  pools_disjoint getProductsByCategory →
  allTops getProductsByCategory ≠ [] →
  allBottoms getProductsByCategory ≠ [] →
  allFootwear getProductsByCategory ≠ [] →
  unit_draws w →
  (1 <= length (outfits (generateOutfitRecommendations
                           getProductsByCategory getProductById
                           request w).1))%nat.
Proof.
  intros Hb Hn HD HT HB HF Hw.
  destruct (generate_resolved getProductsByCategory getProductById
              request base w Hb) as (-> & _ & _).
  unfold slice0. destruct (Z.ltb_spec (numOutfits request) 0); [lia|].
  rewrite length_take, length_map, Array_sort_perm.
  assert (1 <= length (ls_outfits
            (finalState getProductsByCategory request base w)))%nat;
    [|lia].
  unfold finalState.
  destruct (Z.to_nat (numOutfits request * 5)) as [|fuel] eqn:Hfuel; [lia|].
  rewrite attemptLoop_S. cbn [ls_outfits length].
  replace ((Z.of_nat 0 <? numOutfits request * 5)
           && (Z.of_nat 0 <? numOutfits request)) with true.
  2:{ symmetry. apply andb_true_iff. split; apply Z.ltb_lt; lia. }
  cbn iota zeta.
  etrans; [|apply attemptLoop_length].
  rewrite attemptBody_first
    by (try assumption; apply keeps_performance_now, Hw).
  lia.
Qed.

End Yield.

(** * The match badge *)





Section Badge.
Variable getProductsByCategory : string → list Product.
Variable getProductById : string → option Product.

End Badge.

(** * Pagination *)

Section PaginationProperties.

Context {A : Type}.
Variable per : Z.
Hypothesis per_pos : 0 < per.

Lemma totalPages_bounds (l : list A) :
  Z.of_nat (length l) <= totalPages per l * per
  ∧ (totalPages per l - 1) * per < Z.of_nat (length l)
  ∧ 0 <= totalPages per l.
Proof.
  unfold totalPages.
  set (x := (of_nat (length l) / inject_Z per)%Q).
  pose proof (Qle_ceiling x) as Hle. pose proof (Qceiling_lt x) as Hlt.
  set (m := Qceiling x) in *.
  assert (Hp : (0 < inject_Z per)%Q).
  { change 0%Q with (inject_Z 0). rewrite <- Zlt_Qlt. exact per_pos. }
  assert (Hx : (of_nat (length l) == x * inject_Z per)%Q).
  { unfold x. field. lra. }
  unfold of_nat in Hx.
  unfold Z.sub in Hlt. rewrite inject_Z_plus in Hlt.
  change (inject_Z (- (1))) with (-1)%Q in Hlt.
  assert (H1 : Z.of_nat (length l) <= m * per).
  { rewrite Zle_Qle, inject_Z_mult, Hx. nra. }
  assert (H2 : (m - 1) * per < Z.of_nat (length l)).
  { unfold Z.sub. rewrite Zlt_Qlt, inject_Z_mult, inject_Z_plus, Hx.
    change (inject_Z (- (1))) with (-1)%Q. nra. }
  split; [exact H1|]. split; [exact H2|]. nia.
Qed.

(** A page is the chunk of [per] products that starts at its start
    index. *)
Lemma currentProducts_chunk (l : list A) (k : nat) :
  currentProducts per l (Z.of_nat k + 1)
  = take (Z.to_nat per) (drop (k * Z.to_nat per) l).
Proof.
  unfold currentProducts, Array_slice, endIndex, startIndex, relative_index.
  replace (Z.of_nat k + 1 - 1) with (Z.of_nat k) by lia.
  assert (Hk : 0 <= Z.of_nat k * per) by nia.
  destruct (Z.ltb_spec (Z.of_nat k * per) 0); [lia|].
  destruct (Z.ltb_spec (Z.of_nat k * per + per) 0); [lia|].
  assert (Hidx : (k * Z.to_nat per)%nat = Z.to_nat (Z.of_nat k * per)).
  { rewrite Z2Nat.inj_mul, Nat2Z.id by lia. reflexivity. }
  destruct (Z.le_gt_cases (Z.of_nat (length l)) (Z.of_nat k * per))
    as [Hge|Hlt].
  - rewrite Hidx, (drop_ge l (Z.to_nat (Z.of_nat k * per))) by lia.
    rewrite drop_ge by lia. rewrite !take_nil. reflexivity.
  - rewrite (Z.min_l (Z.of_nat k * per)) by lia. rewrite <- Hidx.
    destruct (Z.le_gt_cases (Z.of_nat k * per + per) (Z.of_nat (length l)))
      as [Hfull|Hpart].
    + rewrite Z.min_l by lia. f_equal. lia.
    + rewrite Z.min_r by lia.
      rewrite !take_ge; [reflexivity| |]; rewrite length_drop; lia.
Qed.

Lemma chunks_concat (l : list A) (p m : nat) :
  mjoin (map (λ k, take p (drop (k * p) l)) (seq 0 m)) = take (m * p) l.
Proof.
  induction m as [|m IH]; [reflexivity|].
  rewrite seq_S, map_app, join_app, IH. simpl.
  rewrite app_nil_r. rewrite (Nat.add_comm p), take_take_drop.
  reflexivity.
Qed.

End PaginationProperties.

(** X19: for a positive page size, the pages 1 to [totalPages], one
    after the other, are exactly the filtered products. *)
Theorem pages_partition_the_products {A} (per : Z) (l : list A) :
  0 < per →
  mjoin (map (currentProducts per l) (pageNumbers per l)) = l.
Proof.
  intros Hper.
  destruct (totalPages_bounds per Hper l) as (Hhi & _ & Hm).
  unfold pageNumbers, seqZ.
  change (map ?f (?g <$> ?x)) with (f <$> (g <$> x)).
  rewrite <- list_fmap_compose.
  erewrite list_fmap_ext;
    [|intros i k _; apply (currentProducts_chunk per Hper l k)].
  change (?f <$> ?x) with (map f x).
  rewrite (chunks_concat l (Z.to_nat per) (Z.to_nat (totalPages per l))).
  apply take_ge. nia.
Qed.

(** X20: for a positive page size, each of the pages 1 to
    [totalPages] shows at least one product and at most a page full,
    as many as the "Showing from-to" line announces. *)
Theorem each_page_is_filled {A} (per : Z) (l : list A) (page : Z) :
  0 < per →
  1 <= page <= totalPages per l →
  1 <= Z.of_nat (length (currentProducts per l page)) <= per
  ∧ Z.of_nat (length (currentProducts per l page))
    = showingTo per l page - showingFrom per page + 1.
Proof.
  intros Hper Hpage.
  destruct (totalPages_bounds per Hper l) as (Hhi & Hlo & Hm).
  replace page with (Z.of_nat (Z.to_nat (page - 1)) + 1) at 1 2 3 by lia.
  rewrite (currentProducts_chunk per Hper), length_take, length_drop.
  unfold showingTo, showingFrom, endIndex, startIndex. nia.
Qed.

(** X21: for a positive page size, a page after the last one shows
    nothing. *)
Theorem pages_beyond_the_last_are_empty {A} (per : Z) (l : list A)
    (page : Z) :
  0 < per →
  totalPages per l < page → currentProducts per l page = [].
Proof.
  intros Hper Hpage.
  destruct (totalPages_bounds per Hper l) as (Hhi & Hlo & Hm).
  replace page with (Z.of_nat (Z.to_nat (page - 1)) + 1) by lia.
  rewrite (currentProducts_chunk per Hper), drop_ge; [apply take_nil|]. nia.
Qed.

(** ** The further properties at concrete inputs *)

Lemma dash_free_by_computation (s : string) :
  forallb (λ c, negb (Ascii.eqb c "-")) (list_ascii_of_string s) = true →
  dash_free s.
Proof.
  intros H Hin. rewrite forallb_forall in H. specialize (H _ Hin).
  rewrite Ascii.eqb_refl in H. discriminate.
Qed.

Lemma elem_of_pair {A} (x a b : A) : x ∈ [a; b] → x = a ∨ x = b.
Proof.
  rewrite !elem_of_cons, elem_of_nil. intros [H|[H|[]]]; [left|right]; exact H.
Qed.

Lemma total_price_in_scenario :
  ∃ o,
    head (outfits (recommend scenario (request_for "TOP_001" (Some 1))
                     (steady 0)).1) = Some o
    ∧ safe_prices (catalogByCategory scenario) (catalogById scenario)
    ∧ total_price o
      = lowest_price (top o) + lowest_price (bottom o)
        + lowest_price (footwear o)
        + sumZ (map lowest_price (accessories o))
    ∧ Z.abs (total_price o) <= MAX_SAFE_INTEGER.
Proof.
  assert (Hsafe : safe_prices (catalogByCategory scenario)
                    (catalogById scenario))
    by (apply static_catalog_safe_prices; vm_compute; reflexivity).
  eexists. split; [vm_compute; reflexivity|]. split; [exact Hsafe|].
  apply (total_price_is_sum_of_items
           (catalogByCategory scenario) (catalogById scenario)
           (request_for "TOP_001" (Some 1)) (steady 0)).
  - exact Hsafe.
  - apply list_elem_of_lookup_2 with 0%nat. vm_compute. reflexivity.
Defined.

Lemma coherent_fields_in_scenario :
  ∃ o,
    head (outfits (recommend scenario (request_for "TOP_001" (Some 1))
                     (steady 0)).1) = Some o
    ∧ score_breakdown o = scoreItems None (allItemsOf o)
    ∧ reasoning o
      = generateReasoning (score_breakdown o) (allItemsOf o) (total_price o).
Proof.
  eexists. split; [vm_compute; reflexivity|].
  apply (outfit_fields_are_coherent
           (catalogByCategory scenario) (catalogById scenario)
           (request_for "TOP_001" (Some 1)) (steady 0)).
  apply list_elem_of_lookup_2 with 0%nat. vm_compute. reflexivity.
Defined.


Lemma priced_fillers_in_wardrobe :
  ∃ o,
    head (outfits (recommend wardrobe (request_for "TOP_001" (Some 2))
                     (steady 0.5)).1) = Some o
    ∧ catalogById wardrobe "TOP_001" = Some TOP_001
    ∧ (top o = TOP_001
       ∨ (top o ∈ allTops (catalogByCategory wardrobe)
          ∧ 0 < lowest_price (top o)))
    ∧ (bottom o = TOP_001
       ∨ (bottom o ∈ allBottoms (catalogByCategory wardrobe)
          ∧ 0 < lowest_price (bottom o)))
    ∧ (footwear o = TOP_001
       ∨ (footwear o ∈ allFootwear (catalogByCategory wardrobe)
          ∧ 0 < lowest_price (footwear o)))
    ∧ (∀ a, a ∈ accessories o →
            a ∈ allAccessories (catalogByCategory wardrobe)
            ∧ 0 < lowest_price a).
Proof.
  eexists. split; [vm_compute; reflexivity|]. split; [reflexivity|].
  apply (fillers_are_priced
           (catalogByCategory wardrobe) (catalogById wardrobe)
           (request_for "TOP_001" (Some 2)) (steady 0.5) TOP_001).
  - reflexivity.
  - apply list_elem_of_lookup_2 with 0%nat. vm_compute. reflexivity.
Defined.

Lemma nothing_truncated_in_wardrobe :
  let request := request_for "TOP_001" (Some 2) in
  let w := scripted [0.5; 0; 0; 0]%Q 0 in
  catalogById wardrobe (base_product_id request) = Some TOP_001
  ∧ outfits (recommend wardrobe request w).1
    ≡ₚ map deleteSortScore
         (ls_outfits
            (finalState (catalogByCategory wardrobe) request TOP_001 w)).
Proof.
  cbn zeta. split; [reflexivity|].
  apply (truncation_drops_nothing
           (catalogByCategory wardrobe) (catalogById wardrobe)
           (request_for "TOP_001" (Some 2)) (scripted [0.5; 0; 0; 0]%Q 0)
           TOP_001).
  reflexivity.
Defined.

Lemma season_fit_in_scenario :
  ∃ o,
    head (outfits (recommend scenario (request_for "TOP_001" (Some 1))
                     (steady 0)).1) = Some o
    ∧ req_season (request_for "TOP_001" (Some 1)) = None
    ∧ season_fit (score_breakdown o) = 1.0%Q.
Proof.
  eexists. split; [vm_compute; reflexivity|]. split; [reflexivity|].
  apply (no_season_filter_fits
           (catalogByCategory scenario) (catalogById scenario)
           (request_for "TOP_001" (Some 1)) (steady 0)).
  - left. reflexivity.
  - apply list_elem_of_lookup_2 with 0%nat. vm_compute. reflexivity.
Defined.

Lemma shirt_suits_the_winter :
  in_season "winter" TOP_001 = true
  ∧ (calculateSeasonFit [TOP_001] (Some "winter") == 1)%Q.
Proof.
  split; [reflexivity|].
  apply (proj1 (season_fit_extremes [TOP_001] "winter"
                  ltac:(discriminate) ltac:(discriminate)
                  ltac:(discriminate))).
  intros item Hin. apply list_elem_of_singleton in Hin as ->. reflexivity.
Defined.


Lemma watch_scores_within_unit :
  plain_brand ACC_001
  ∧ (0 <= candidateScore [TOP_001; BOTTOM_002] None ACC_001)%Q
  ∧ (candidateScore [TOP_001; BOTTOM_002] None ACC_001 <= 1)%Q.
Proof.
  split; [reflexivity|].
  apply (candidateScore_bounds [TOP_001; BOTTOM_002] None ACC_001).
  - reflexivity.
  - apply plain_brand_by_computation. vm_compute. reflexivity.
Defined.

Lemma nike_is_tier_three :
  let shirt := with_brand "Nike" TOP_001 in
  plain_brand shirt
  ∧ brandTier shirt = 3
  ∧ 1 <= brandTier shirt <= 5
  ∧ brandTier (with_brand (toLowerCase (brand_name shirt)) shirt)
    = brandTier shirt.
Proof.
  cbn zeta. split; [reflexivity|]. split; [vm_compute; reflexivity|].
  apply (brandTier_range_and_case (with_brand "Nike" TOP_001)).
  reflexivity.
Defined.

Lemma rebranded_shirt_has_the_same_key :
  let shirt := with_brand "Dickies" TOP_001 in
  combinationKey TOP_001 BOTTOM_001 SHOE_001
  = combinationKey shirt BOTTOM_001 SHOE_001
  ∧ sku_id TOP_001 = sku_id shirt
  ∧ sku_id BOTTOM_001 = sku_id BOTTOM_001
  ∧ sku_id SHOE_001 = sku_id SHOE_001.
Proof.
  cbn zeta. split; [reflexivity|].
  apply (combinationKey_injective TOP_001 BOTTOM_001 SHOE_001
           (with_brand "Dickies" TOP_001) BOTTOM_001 SHOE_001).
  - apply dash_free_by_computation. vm_compute. reflexivity.
  - apply dash_free_by_computation. vm_compute. reflexivity.
  - apply dash_free_by_computation. vm_compute. reflexivity.
  - apply dash_free_by_computation. vm_compute. reflexivity.
  - reflexivity.
Defined.

Lemma shirt_and_sneakers_match :
  (calculateStyleMatch [TOP_001; SHOE_001] == 1)%Q.
Proof.
  apply (one_style_matches_perfectly [TOP_001; SHOE_001] casual).
  - simpl. lia.
  - intros p Hp. apply elem_of_pair in Hp as [->| ->]; reflexivity.
Defined.

Lemma basics_are_cohesive :
  (calculateBrandCohesion [TOP_001; BOTTOM_001] == 1)%Q.
Proof.
  apply (one_tier_is_fully_cohesive [TOP_001; BOTTOM_001]
           (brandTier TOP_001)).
  - apply plain_brand_by_computation. vm_compute. reflexivity.
  - discriminate.
  - intros p Hp. apply elem_of_pair in Hp as [->| ->];
      vm_compute; reflexivity.
Defined.




Lemma pages_of_23_products :
  0 < PRODUCTS_PER_PAGE
  ∧ mjoin (map (currentProducts PRODUCTS_PER_PAGE (seq 0 23))
             (pageNumbers PRODUCTS_PER_PAGE (seq 0 23)))
    = seq 0 23.
Proof.
  split; [reflexivity|].
  apply (pages_partition_the_products PRODUCTS_PER_PAGE (seq 0 23)).
  reflexivity.
Defined.

Lemma third_page_of_23_products :
  totalPages PRODUCTS_PER_PAGE (seq 0 23) = 3
  ∧ 1 <= Z.of_nat (length (currentProducts PRODUCTS_PER_PAGE (seq 0 23) 3))
    <= PRODUCTS_PER_PAGE
  ∧ Z.of_nat (length (currentProducts PRODUCTS_PER_PAGE (seq 0 23) 3))
    = showingTo PRODUCTS_PER_PAGE (seq 0 23) 3
      - showingFrom PRODUCTS_PER_PAGE 3 + 1.
Proof.
  assert (E : totalPages PRODUCTS_PER_PAGE (seq 0 23) = 3)
    by (vm_compute; reflexivity).
  split; [exact E|].
  apply (each_page_is_filled PRODUCTS_PER_PAGE (seq 0 23) 3).
  - reflexivity.
  - rewrite E. lia.
Defined.

Lemma fourth_page_of_23_products :
  totalPages PRODUCTS_PER_PAGE (seq 0 23) < 4
  ∧ currentProducts PRODUCTS_PER_PAGE (seq 0 23) 4 = [].
Proof.
  assert (H : totalPages PRODUCTS_PER_PAGE (seq 0 23) < 4)
    by (vm_compute; reflexivity).
  split; [exact H|].
  apply (pages_beyond_the_last_are_empty PRODUCTS_PER_PAGE (seq 0 23) 4).
  - reflexivity.
  - exact H.
Defined.

Lemma lone_shirt_gives_no_outfit :
  allBottoms (catalogByCategory lone_shirt) = []
  ∧ outfits (recommend lone_shirt (request_for "TOP_001" (Some 2))
               (steady 0)).1 = [].
Proof.
  split; [reflexivity|].
  apply (empty_pool_gives_no_outfit
           (catalogByCategory lone_shirt) (catalogById lone_shirt)
           (request_for "TOP_001" (Some 2)) (steady 0)).
  right. left. reflexivity.
Defined.

Lemma first_attempt_in_wardrobe :
  let request := request_for "BOTTOM_002" (Some 2) in
  catalogById wardrobe (base_product_id request) = Some BOTTOM_002
  ∧ (1 <= length (outfits (recommend wardrobe request (steady 0.5)).1))%nat.
Proof.
  cbn zeta. split; [reflexivity|].
  apply (first_attempt_yields_an_outfit
           (catalogByCategory wardrobe) (catalogById wardrobe)
           (request_for "BOTTOM_002" (Some 2)) BOTTOM_002 (steady 0.5)).
  - reflexivity.
  - vm_compute. discriminate.
  - exact wardrobe_pools_disjoint.
  - vm_compute. discriminate.
  - vm_compute. discriminate.
  - vm_compute. discriminate.
  - apply steady_unit_draws; lra.
Defined.
